(** * The x86 register context of the runtime's stack unwinder

    A shallow embedding of [runtime/arch/x86/context_x86.cc]: the slot arrays
    of an [X86Context], the frame spill decoder [FillCalleeSaves], the
    mutators [SetGPR] / [SetFPR], the caller-save synthesizer
    [SmashCallerSaves] and the long-jump engine [DoLongJump], together with
    the properties the design document states about them.

    Target data model: ILP32 ([uintptr_t], [size_t] and [uint32_t] are all
    32-bit unsigned, [int] is 32-bit two's complement). *)

From Stdlib Require Import ZArith Arith List Bool Lia ZifyNat.
Import ListNotations.
Local Open Scope Z_scope.

(** ** Machine integers *)

(** Unsigned 32-bit arithmetic ([uintptr_t], [size_t], [uint32_t]) wraps. *)
Definition to_uintptr (z : Z) : Z := z mod 2 ^ 32.

(** Conversion of an unsigned 32-bit value to [int] (two's complement). *)
Definition to_int (z : Z) : Z :=
  let u := to_uintptr z in
  if u <? 2 ^ 31 then u else u - 2 ^ 32.

(** [sizeof(intptr_t)] on the target. *)
Definition sizeof_intptr_t : Z := 4.

(** ** Register numbering

    Modelled from the spec: [registers_x86.h] and [context_x86.h] are not
    part of the sources at hand.  The general-purpose numbering is the x86
    hardware encoding, which the [popal] sequence of [DoLongJump] relies on;
    the floating-point array has one entry per 32-bit word of XMM0..XMM7
    ("pairs of adjacent word-sized slots"), matching the eight [movsd] loads
    at offsets 0..56 of the [uint32_t fprs[kNumberOfFloatRegisters]] buffer. *)
Definition EAX : nat := 0.
Definition ECX : nat := 1.
Definition EDX : nat := 2.
Definition EBX : nat := 3.
Definition ESP : nat := 4.
Definition EBP : nat := 5.
Definition ESI : nat := 6.
Definition EDI : nat := 7.
Definition kNumberOfCpuRegisters : nat := 8.
Definition kNumberOfFloatRegisters : nat := 16.

(** ** Slot references

    A slot of the context is a raw pointer in the source.  The values it can
    take are kept apart symbolically: [nullptr] (unset), the address of the
    context's own [esp_] field, the address of the file-level constant
    [gZero], or the address of a word of the stack being walked. *)
Inductive ptr : Type :=
| nullptr
| addr_esp_
| addr_gZero
| addr_stack (a : Z).

Definition ptr_eqb (p q : ptr) : bool :=
  match p, q with
  | nullptr, nullptr => true
  | addr_esp_, addr_esp_ => true
  | addr_gZero, addr_gZero => true
  | addr_stack a, addr_stack b => a =? b
  | _, _ => false
  end.

(** [static constexpr uintptr_t gZero = 0;] *)
Definition gZero : Z := 0.

(** ** The context and the memory it points into *)

(** A fixed-size C array indexed by [nat]; only the indices below the
    declared bound exist, and the accessors below refuse the others. *)
Definition array (A : Type) : Type := nat -> A.

Definition upd {A : Type} (f : array A) (i : nat) (v : A) : array A :=
  fun k => if Nat.eqb k i then v else f k.

Definition updZ {A : Type} (f : Z -> A) (a : Z) (v : A) : Z -> A :=
  fun k => if k =? a then v else f k.

Record X86Context : Type := mkContext {
  gprs_ : array ptr;   (* uintptr_t* gprs_[kNumberOfCpuRegisters] *)
  fprs_ : array ptr;   (* uint32_t*  fprs_[kNumberOfFloatRegisters] *)
  esp_ : Z;            (* uintptr_t esp_ *)
  eip_ : Z             (* uintptr_t eip_ *)
}.

Record State : Type := mkState {
  ctx : X86Context;
  stack : Z -> Z       (* the words of the frames being walked, by address *)
}.

(** ** A state-and-failure monad for the member functions *)

Inductive check : Type :=
| CHECK_LT_failed
| CHECK_NE_failed
| DCHECK_failed
| UNIMPLEMENTED_FATAL.

Inductive failure : Type :=
| Fatal (c : check)      (* a CHECK aborted the runtime *)
| NullDereference        (* access through nullptr *)
| ReadOnlyWrite          (* store into the constant gZero *)
| OutOfBounds.           (* array index past its declared bound *)

(** The state carried by [Abort] is the state at the point of failure. *)
Inductive result (A : Type) : Type :=
| Ok (a : A) (s : State)
| Abort (f : failure) (s : State).
Arguments Ok {A} a s.
Arguments Abort {A} f s.

Definition M (A : Type) : Type := State -> result A.

Definition ret {A : Type} (a : A) : M A := fun s => Ok a s.

Definition bind {A B : Type} (m : M A) (k : A -> M B) : M B :=
  fun s => match m s with
           | Ok a s' => k a s'
           | Abort f s' => Abort f s'
           end.

Declare Scope ctx_scope.
Delimit Scope ctx_scope with ctx.
Notation "x <- m ;; k" := (bind m (fun x => k))
  (at level 61, m at next level, right associativity) : ctx_scope.
Notation "m ;; k" := (bind m (fun _ => k))
  (at level 61, right associativity) : ctx_scope.
Local Open Scope ctx_scope.

Definition abort {A : Type} (f : failure) : M A := fun s => Abort f s.

Definition when (b : bool) (m : M unit) : M unit := if b then m else ret tt.

(** [for (i = ...; ...; ++i) body], with the locals the body updates
    threaded through as [l]. *)
Fixpoint for_loop {L : Type} (idxs : list nat) (body : nat -> L -> M L) (l : L) : M L :=
  match idxs with
  | [] => ret l
  | i :: rest => l' <- body i l ;; for_loop rest body l'
  end.

Definition for_each (idxs : list nat) (body : nat -> M unit) : M unit :=
  for_loop idxs (fun i _ => body i) tt.

Definition state_of {A : Type} (r : result A) : State :=
  match r with Ok _ s => s | Abort _ s => s end.

(** *** Field and array accessors *)

Definition get_gpr (i : nat) : M ptr := fun s =>
  if (i <? kNumberOfCpuRegisters)%nat then Ok (gprs_ (ctx s) i) s
  else Abort OutOfBounds s.

Definition get_fpr (i : nat) : M ptr := fun s =>
  if (i <? kNumberOfFloatRegisters)%nat then Ok (fprs_ (ctx s) i) s
  else Abort OutOfBounds s.

Definition set_gpr (i : nat) (p : ptr) : M unit := fun s =>
  if (i <? kNumberOfCpuRegisters)%nat then
    Ok tt (mkState (mkContext (upd (gprs_ (ctx s)) i p) (fprs_ (ctx s))
                              (esp_ (ctx s)) (eip_ (ctx s)))
                   (stack s))
  else Abort OutOfBounds s.

(** The source indexes its arrays unchecked.  An index past the declared
    bound has no defined meaning in C++ (in a real run the store lands on
    whatever follows the array and the call goes on); here the run is stopped
    at that point, and nothing is claimed about it: every property of
    [FillCalleeSaves] is stated for masks that keep the index in bounds. *)
Definition set_fpr (i : nat) (p : ptr) : M unit := fun s =>
  if (i <? kNumberOfFloatRegisters)%nat then
    Ok tt (mkState (mkContext (gprs_ (ctx s)) (upd (fprs_ (ctx s)) i p)
                              (esp_ (ctx s)) (eip_ (ctx s)))
                   (stack s))
  else Abort OutOfBounds s.

Definition get_eip_ : M Z := fun s => Ok (eip_ (ctx s)) s.

Definition set_esp_ (v : Z) : M unit := fun s =>
  Ok tt (mkState (mkContext (gprs_ (ctx s)) (fprs_ (ctx s)) v (eip_ (ctx s)))
                 (stack s)).

Definition set_eip_ (v : Z) : M unit := fun s =>
  Ok tt (mkState (mkContext (gprs_ (ctx s)) (fprs_ (ctx s)) (esp_ (ctx s)) v)
                 (stack s)).

(** [*p] as an rvalue. *)
Definition load (p : ptr) : M Z := fun s =>
  match p with
  | nullptr => Abort NullDereference s
  | addr_esp_ => Ok (esp_ (ctx s)) s
  | addr_gZero => Ok gZero s
  | addr_stack a => Ok (stack s a) s
  end.

(** [*p = v].  Every stack address is taken to be mapped, writable memory:
    a store to an unmapped address, which faults in a real run, is outside
    this model. *)
Definition store (p : ptr) (v : Z) : M unit :=
  match p with
  | nullptr => abort NullDereference
  | addr_esp_ => set_esp_ v
  | addr_gZero => abort ReadOnlyWrite
  | addr_stack a => fun s => Ok tt (mkState (ctx s) (updZ (stack s) a v))
  end.

(** Reading the word at [p] directly, not through the context's slots. *)
Definition read_word (s : State) (p : ptr) : option Z :=
  match load p s with
  | Ok v _ => Some v
  | Abort _ _ => None
  end.

(** ** The frame cursor

    [StackVisitor], [mirror::ArtMethod] and [QuickMethodFrameInfo] are
    external collaborators; [FillCalleeSaves] consumes exactly the four
    observations below. *)
Record QuickMethodFrameInfo : Type := mkFrameInfo {
  FrameSizeInBytes : Z;
  CoreSpillMask : Z;   (* uint32_t *)
  FpSpillMask : Z      (* uint32_t *)
}.

Record StackVisitor : Type := mkVisitor {
  GetQuickFrameInfo : QuickMethodFrameInfo;   (* fr.GetMethod()->GetQuickFrameInfo() *)
  CalleeSaveAddress : Z -> Z -> ptr           (* fr.CalleeSaveAddress(int num, size_t frame_size) *)
}.

(** [((mask >> i) & 1) != 0] *)
Definition spilled (mask : Z) (i : nat) : bool :=
  negb (Z.land (Z.shiftr mask (Z.of_nat i)) 1 =? 0).

(** Number of set bits of [mask] at the [n] positions from [a] upwards. *)
Fixpoint count_bits (mask : Z) (a n : nat) : Z :=
  match n with
  | O => 0
  | S n' => (if Z.testbit mask (Z.of_nat a) then 1 else 0) + count_bits mask (S a) n'
  end.

(** Modelled from the spec: the [POPCOUNT] macro of [utils.h] is not part of
    the sources at hand; it "counts the set bits" of a 32-bit mask. *)
Definition POPCOUNT (mask : Z) : Z := count_bits mask 0 32.

(** The type of the inline members [IsAccessibleGPR(reg)] and
    [IsAccessibleFPR(reg)], which inspect the context they belong to. *)
Definition register_predicate : Type := nat -> State -> bool.

Section Context_x86.

(** Constants, build switches and inline members that [context_x86.cc] takes
    from headers outside the sources at hand. *)
Variable kBadGprBase : Z.
Variable kBadFprBase : Z.
Variable kEnableDChecks : bool.
Variable IsAccessibleGPR : register_predicate.
Variable IsAccessibleFPR : register_predicate.
Variable defined__i386__ : bool.

(** *** Assertion macros *)

Definition CHECK_LT (a b : nat) : M unit := fun s =>
  if (a <? b)%nat then Ok tt s else Abort (Fatal CHECK_LT_failed) s.

Definition CHECK_NE (p q : ptr) : M unit := fun s =>
  if ptr_eqb p q then Abort (Fatal CHECK_NE_failed) s else Ok tt s.

Definition DCHECK (cond : State -> bool) : M unit := fun s =>
  if kEnableDChecks && negb (cond s) then Abort (Fatal DCHECK_failed) s
  else Ok tt s.

(** ** [X86Context::Reset] *)
Definition Reset : M unit :=
  for_each (seq 0 kNumberOfCpuRegisters) (fun i => set_gpr i nullptr) ;;
  for_each (seq 0 kNumberOfFloatRegisters) (fun i => set_fpr i nullptr) ;;
  set_gpr ESP addr_esp_ ;;
  set_esp_ (to_uintptr (kBadGprBase + Z.of_nat ESP)) ;;
  set_eip_ (to_uintptr (kBadGprBase + Z.of_nat kNumberOfCpuRegisters)).

(** ** [X86Context::FillCalleeSaves] *)
Definition FillCalleeSaves (fr : StackVisitor) : M unit :=
  let frame_info := GetQuickFrameInfo fr in
  let spill_count := POPCOUNT (CoreSpillMask frame_info) in
  let fp_spill_count := POPCOUNT (FpSpillMask frame_info) in
  when (0 <? spill_count)
    (for_loop (seq 0 kNumberOfCpuRegisters)
       (fun i j =>
          if spilled (CoreSpillMask frame_info) i then
            set_gpr i (CalleeSaveAddress fr (to_int (spill_count - j))
                                         (FrameSizeInBytes frame_info)) ;;
            ret (j + 1)
          else ret j)
       2 ;;
     ret tt) ;;
  when (0 <? fp_spill_count)
    (let fp_spill_size_in_words := to_uintptr (fp_spill_count * 2) in
     for_loop (seq 0 kNumberOfFloatRegisters)
       (fun i j =>
          if spilled (FpSpillMask frame_info) i then
            set_fpr (2 * i)
              (CalleeSaveAddress fr
                 (to_int (spill_count + fp_spill_size_in_words - j))
                 (FrameSizeInBytes frame_info)) ;;
            set_fpr (2 * i + 1)
              (CalleeSaveAddress fr
                 (to_int (spill_count + fp_spill_size_in_words - j - 1))
                 (FrameSizeInBytes frame_info)) ;;
            ret (to_uintptr (j + 2))
          else ret j)
       2 ;;
     ret tt).

(** ** [X86Context::SmashCallerSaves] *)
Definition SmashCallerSaves : M unit :=
  set_gpr EAX addr_gZero ;;
  set_gpr EDX addr_gZero ;;
  set_gpr ECX nullptr ;;
  set_gpr EBX nullptr ;;
  (* memset(&fprs_[0], '\0', sizeof(fprs_)) *)
  for_each (seq 0 kNumberOfFloatRegisters) (fun i => set_fpr i nullptr).

(** ** [X86Context::SetGPR] and [X86Context::SetFPR]

    [reg] is a [uint32_t] and [value] a [uintptr_t]: both are in range by
    their type, and the 32-bit store of [SetFPR] keeps [value] whole. *)
Definition SetGPR (reg : nat) (value : Z) : M unit :=
  CHECK_LT reg kNumberOfCpuRegisters ;;
  DCHECK (IsAccessibleGPR reg) ;;
  p <- get_gpr reg ;;
  CHECK_NE p addr_gZero ;;
  p <- get_gpr reg ;;
  store p value.

Definition SetFPR (reg : nat) (value : Z) : M unit :=
  CHECK_LT reg kNumberOfFloatRegisters ;;
  DCHECK (IsAccessibleFPR reg) ;;
  p <- get_fpr reg ;;
  CHECK_NE p addr_gZero ;;
  p <- get_fpr reg ;;
  store p value.

(** ** [X86Context::DoLongJump] *)

(** The processor registers the inline assembly loads. *)
Record Cpu : Type := mkCpu {
  cpu_reg : array Z;         (* general-purpose registers, by number *)
  cpu_xmm : array (Z * Z);   (* low quadword of XMM0..XMM7 as (low, high) word *)
  cpu_eip : Z
}.

(** What [DoLongJump] leaves behind: both scratch buffers and the processor
    state once [ret] has transferred control. *)
Record LongJump : Type := mkLongJump {
  jump_gprs : array Z;   (* volatile uintptr_t gprs[kNumberOfCpuRegisters + 1] *)
  jump_fprs : array Z;   (* uint32_t fprs[kNumberOfFloatRegisters] *)
  jump_cpu : Cpu
}.

(** Accesses to a local array of [bound] elements. *)
Definition local_get (bound : nat) (a : array Z) (i : nat) : M Z := fun s =>
  if (i <? bound)%nat then Ok (a i) s else Abort OutOfBounds s.

Definition local_set (bound : nat) (a : array Z) (i : nat) (v : Z) : M (array Z) :=
  fun s => if (i <? bound)%nat then Ok (upd a i v) s else Abort OutOfBounds s.

(** [popal] with the stack pointer at element [base] of [buf]: pops EDI,
    ESI, EBP, skips the stored ESP, then pops EBX, EDX, ECX and EAX. *)
Definition popal (buf : array Z) (base : nat) (r : array Z) : array Z :=
  let r := upd r EDI (buf base) in
  let r := upd r ESI (buf (base + 1)%nat) in
  let r := upd r EBP (buf (base + 2)%nat) in
  let r := upd r EBX (buf (base + 4)%nat) in
  let r := upd r EDX (buf (base + 5)%nat) in
  let r := upd r ECX (buf (base + 6)%nat) in
  upd r EAX (buf (base + 7)%nat).

(** The [__asm__] block, with [%0 = &gprs[0]] and [%1 = &fprs[0]]. *)
Definition asm_long_jump (gprs fprs : array Z) (cpu : Cpu) : M Cpu :=
  (* movl %1, %ebx ; movsd 8k(%ebx), %xmmk for k = 0..7 *)
  let r := upd (cpu_reg cpu) EBX 0 in
  let x := fun k => if (k <? 8)%nat then (fprs (2 * k)%nat, fprs (2 * k + 1)%nat)
                    else cpu_xmm cpu k in
  (* movl %0, %esp ; popal *)
  let r := popal gprs 0 r in
  (* popl %esp *)
  let r := upd r ESP (gprs 8%nat) in
  (* ret *)
  target <- load (addr_stack (r ESP)) ;;
  ret (mkCpu (upd r ESP (to_uintptr (r ESP + 4))) x target).

Definition DoLongJump (gprs0 fprs0 : array Z) (cpu : Cpu) : M LongJump :=
  if defined__i386__ then
    gprs <- for_loop (seq 0 kNumberOfCpuRegisters)
              (fun i gprs =>
                 p <- get_gpr i ;;
                 v <- (if negb (ptr_eqb p nullptr) then load p
                       else ret (to_uintptr (kBadGprBase + Z.of_nat i))) ;;
                 local_set (kNumberOfCpuRegisters + 1) gprs
                           (kNumberOfCpuRegisters - i - 1) v)
              gprs0 ;;
    fprs <- for_loop (seq 0 kNumberOfFloatRegisters)
              (fun i fprs =>
                 p <- get_fpr i ;;
                 v <- (if negb (ptr_eqb p nullptr) then load p
                       else ret (to_uintptr (kBadFprBase + Z.of_nat i))) ;;
                 local_set kNumberOfFloatRegisters fprs i v)
              fprs0 ;;
    g <- local_get (kNumberOfCpuRegisters + 1) gprs (kNumberOfCpuRegisters - ESP - 1) ;;
    let esp := to_uintptr (g - sizeof_intptr_t) in
    gprs <- local_set (kNumberOfCpuRegisters + 1) gprs kNumberOfCpuRegisters esp ;;
    eip <- get_eip_ ;;
    store (addr_stack esp) eip ;;
    cpu' <- asm_long_jump gprs fprs cpu ;;
    ret (mkLongJump gprs fprs cpu')
  else abort (Fatal UNIMPLEMENTED_FATAL).

(** ** Call sequences of the unwinder *)

Inductive op : Type :=
| op_FillCalleeSaves (fr : StackVisitor)
| op_SmashCallerSaves
| op_SetGPR (reg : nat) (value : Z)
| op_SetFPR (reg : nat) (value : Z).

Definition run (o : op) : M unit :=
  match o with
  | op_FillCalleeSaves fr => FillCalleeSaves fr
  | op_SmashCallerSaves => SmashCallerSaves
  | op_SetGPR reg value => SetGPR reg value
  | op_SetFPR reg value => SetFPR reg value
  end.

Fixpoint run_ops (os : list op) : M unit :=
  match os with
  | [] => ret tt
  | o :: rest => run o ;; run_ops rest
  end.

(** The calls that bind general-purpose slot [i] (floating-point slot [k]). *)
Definition populates_gpr (i : nat) (o : op) : bool :=
  match o with
  | op_FillCalleeSaves fr => spilled (CoreSpillMask (GetQuickFrameInfo fr)) i
  | op_SmashCallerSaves => Nat.eqb i EAX || Nat.eqb i EDX
  | _ => false
  end.

Definition populates_fpr (k : nat) (o : op) : bool :=
  match o with
  | op_FillCalleeSaves fr => spilled (FpSpillMask (GetQuickFrameInfo fr)) (k / 2)
  | _ => false
  end.

(** A frame cursor hands out addresses of real stack words. *)
Definition frame_addresses_nonnull (o : op) : Prop :=
  match o with
  | op_FillCalleeSaves fr => forall num size, CalleeSaveAddress fr num size <> nullptr
  | _ => True
  end.

(** Every spilled XMM register [i] has its two words [2i], [2i+1] inside
    [fprs_]. *)
Definition fp_spills_in_bounds (fr : StackVisitor) : bool :=
  forallb (fun i => negb (spilled (FpSpillMask (GetQuickFrameInfo fr)) i)
                    || (2 * i + 1 <? kNumberOfFloatRegisters)%nat)
          (seq 0 kNumberOfFloatRegisters).

(** The value [DoLongJump] takes for a slot: the word it points to, or a
    debug value built on [bad_base] when the slot is unset. *)
Definition slot_value (bad_base : Z) (s : State) (p : ptr) (i : nat) : Z :=
  match p with
  | nullptr => to_uintptr (bad_base + Z.of_nat i)
  | addr_esp_ => esp_ (ctx s)
  | addr_gZero => gZero
  | addr_stack a => stack s a
  end.

(** The two loops of [FillCalleeSaves], named so that they can be reasoned
    about one at a time; [FillCalleeSaves_unfold] below ties them back to
    the function. *)
Definition core_body (fr : StackVisitor) (i : nat) (j : Z) : M Z :=
  let frame_info := GetQuickFrameInfo fr in
  let spill_count := POPCOUNT (CoreSpillMask frame_info) in
  if spilled (CoreSpillMask frame_info) i then
    set_gpr i (CalleeSaveAddress fr (to_int (spill_count - j))
                                 (FrameSizeInBytes frame_info)) ;;
    ret (j + 1)
  else ret j.

Definition fill_core (fr : StackVisitor) : M unit :=
  when (0 <? POPCOUNT (CoreSpillMask (GetQuickFrameInfo fr)))
    (for_loop (seq 0 kNumberOfCpuRegisters) (core_body fr) 2 ;; ret tt).

Definition fp_body (fr : StackVisitor) (i : nat) (j : Z) : M Z :=
  let frame_info := GetQuickFrameInfo fr in
  let spill_count := POPCOUNT (CoreSpillMask frame_info) in
  let fp_spill_count := POPCOUNT (FpSpillMask frame_info) in
  let fp_spill_size_in_words := to_uintptr (fp_spill_count * 2) in
  if spilled (FpSpillMask frame_info) i then
    set_fpr (2 * i)
      (CalleeSaveAddress fr
         (to_int (spill_count + fp_spill_size_in_words - j))
         (FrameSizeInBytes frame_info)) ;;
    set_fpr (2 * i + 1)
      (CalleeSaveAddress fr
         (to_int (spill_count + fp_spill_size_in_words - j - 1))
         (FrameSizeInBytes frame_info)) ;;
    ret (to_uintptr (j + 2))
  else ret j.

Definition fill_fp (fr : StackVisitor) : M unit :=
  when (0 <? POPCOUNT (FpSpillMask (GetQuickFrameInfo fr)))
    (for_loop (seq 0 kNumberOfFloatRegisters) (fp_body fr) 2 ;; ret tt).

(** The spill position [FillCalleeSaves] asks the frame for: register [i]
    carries set bit number [count_bits core 0 i] of the core mask (counting
    from 0, low to high), and two leading positions are skipped. *)
Definition core_spill_position (fr : StackVisitor) (i : nat) : Z :=
  let core := CoreSpillMask (GetQuickFrameInfo fr) in
  POPCOUNT core - count_bits core 0 i - 2.

(** The spill position of the first word of XMM register [i]; the second
    word sits one position below. *)
Definition fp_spill_position (fr : StackVisitor) (i : nat) : Z :=
  let core := CoreSpillMask (GetQuickFrameInfo fr) in
  let fp := FpSpillMask (GetQuickFrameInfo fr) in
  POPCOUNT core + 2 * POPCOUNT fp - 2 * count_bits fp 0 i - 2.

(** ** Sample inputs

    A frame of 64 bytes at address 4096 that spills EDX (register 2) and
    EBP (register 5), with bit 8 of the core mask standing for the return
    address, and XMM1 and XMM3; its cursor places spill position [num] at
    [frame + size - (num + 1) * 4 - 4]. *)
Definition sample_frame : StackVisitor :=
  mkVisitor (mkFrameInfo 64 292 10)
            (fun num size => addr_stack (4096 + size - (num + 1) * 4 - 4)).

(** The caller's frame, 32 bytes at address 4160, spilling EBX (register 3)
    and EBP (register 5) next to the return-address bit. *)
Definition outer_frame : StackVisitor :=
  mkVisitor (mkFrameInfo 32 296 0)
            (fun num size => addr_stack (4160 + size - (num + 1) * 4 - 4)).

(** A frame like [sample_frame], of a thread whose stack lies at address
    3954008128 (0xebad6040). *)
Definition debug_page_frame : StackVisitor :=
  mkVisitor (mkFrameInfo 64 292 0)
            (fun num size => addr_stack (3954008128 + size - (num + 1) * 4 - 4)).

Definition blank_state : State :=
  mkState (mkContext (fun _ => nullptr) (fun _ => nullptr) 0 0) (fun _ => 0).

(** A context whose ESP slot points at [esp_], whose EBX slot points at
    stack word 4152 and whose EAX slot points at [gZero]; floating-point
    slot 2 points at stack word 4120 and slot 0 at [gZero]. *)
Definition sample_state : State :=
  mkState (mkContext (upd (upd (upd (fun _ => nullptr) ESP addr_esp_)
                               EBX (addr_stack 4152)) EAX addr_gZero)
                     (upd (upd (fun _ => nullptr) 2 (addr_stack 4120)) 0 addr_gZero)
                     4200 4660)
          (fun a => a + 1).

Definition sample_bad_gpr_base : Z := 3954008176.   (* 0xebad6070 *)
Definition sample_bad_fpr_base : Z := 3954016368.   (* 0xebad8070 *)

(** Accessible means bound. *)
Definition sample_IsAccessibleGPR (reg : nat) (s : State) : bool :=
  negb (ptr_eqb (gprs_ (ctx s) reg) nullptr).

Definition sample_IsAccessibleFPR (reg : nat) (s : State) : bool :=
  negb (ptr_eqb (fprs_ (ctx s) reg) nullptr).

Definition sample_cpu : Cpu := mkCpu (fun _ => 0) (fun _ => (0, 0)) 0.

Definition sample_calls : list op :=
  [op_FillCalleeSaves sample_frame; op_SetGPR EDX 57005; op_SetFPR 2 48879;
   op_SmashCallerSaves].

(** * Properties *)

(** Proofs depend on the header parameters their statements mention, and on
    no others. *)
Set Default Proof Using "Type".

(** Let [lia] see through division and remainder by constants. *)
Local Ltac Zify.zify_post_hook ::= Z.to_euclidean_division_equations.

(** ** Arrays and sequencing *)

Lemma upd_eq {A : Type} (f : array A) (i : nat) (v : A) : upd f i v i = v.
Proof. unfold upd. now rewrite Nat.eqb_refl. Qed.

Lemma upd_neq {A : Type} (f : array A) (i k : nat) (v : A) :
  k <> i -> upd f i v k = f k.
Proof. intros H. unfold upd. now apply Nat.eqb_neq in H as ->. Qed.

Lemma updZ_eq {A : Type} (f : Z -> A) (a : Z) (v : A) : updZ f a v a = v.
Proof. unfold updZ. now rewrite Z.eqb_refl. Qed.

Lemma bind_Ok {A B : Type} (m : M A) (k : A -> M B) s a s' :
  m s = Ok a s' -> bind m k s = k a s'.
Proof. intros H. unfold bind. now rewrite H. Qed.

Lemma bind_Abort {A B : Type} (m : M A) (k : A -> M B) s f s' :
  m s = Abort f s' -> bind m k s = Abort f s'.
Proof. intros H. unfold bind. now rewrite H. Qed.

Lemma ptr_eqb_eq (p q : ptr) : ptr_eqb p q = true <-> p = q.
Proof.
  destruct p, q; simpl; split; intros H; try discriminate; try reflexivity.
  - apply Z.eqb_eq in H. now subst.
  - injection H as ->. apply Z.eqb_refl.
Qed.

Lemma ptr_eqb_neq (p q : ptr) : ptr_eqb p q = false <-> p <> q.
Proof.
  split.
  - intros H E. apply ptr_eqb_eq in E. congruence.
  - intros H. destruct (ptr_eqb p q) eqn:E; [|reflexivity].
    apply ptr_eqb_eq in E. contradiction.
Qed.

(** Storing the same pointer into a run of slots, as [Reset] and the
    [memset] of [SmashCallerSaves] do. *)
Lemma fill_gprs (p : ptr) (n a : nat) (s : State) :
  (a + n <= kNumberOfCpuRegisters)%nat ->
  exists s',
    for_each (seq a n) (fun i => set_gpr i p) s = Ok tt s' /\
    fprs_ (ctx s') = fprs_ (ctx s) /\ esp_ (ctx s') = esp_ (ctx s) /\
    eip_ (ctx s') = eip_ (ctx s) /\ stack s' = stack s /\
    forall k, gprs_ (ctx s') k =
              if (a <=? k)%nat && (k <? a + n)%nat then p else gprs_ (ctx s) k.
Proof.
  revert a s. induction n as [|n IH]; intros a s Hb.
  - exists s. repeat split; try reflexivity.
    intros k. destruct (a <=? k)%nat eqn:E1, (k <? a + 0)%nat eqn:E2; try reflexivity.
    apply Nat.leb_le in E1. apply Nat.ltb_lt in E2. lia.
  - unfold for_each in *. simpl seq. simpl for_loop.
    assert (Ha : (a <? kNumberOfCpuRegisters)%nat = true) by (apply Nat.ltb_lt; lia).
    destruct (IH (S a) (mkState (mkContext (upd (gprs_ (ctx s)) a p) (fprs_ (ctx s))
                                           (esp_ (ctx s)) (eip_ (ctx s))) (stack s)))
      as (s' & Hrun & Hf & He & Hi & Hs & Hg); [lia|].
    exists s'. split.
    + erewrite bind_Ok; [exact Hrun|]. unfold set_gpr. now rewrite Ha.
    + cbn [ctx gprs_ fprs_ esp_ eip_ stack] in Hf, He, Hi, Hs, Hg. repeat split; try assumption.
      intros k. rewrite Hg.
      destruct (Nat.eq_dec k a) as [->|Hk].
      * rewrite upd_eq.
        replace (S a <=? a)%nat with false by (symmetry; apply Nat.leb_gt; lia).
        replace (a <=? a)%nat with true by (symmetry; apply Nat.leb_le; lia).
        replace (a <? a + S n)%nat with true by (symmetry; apply Nat.ltb_lt; lia).
        reflexivity.
      * rewrite upd_neq by assumption.
        replace (a + S n)%nat with (S a + n)%nat by lia.
        destruct (S a <=? k)%nat eqn:E1, (a <=? k)%nat eqn:E2; try reflexivity;
          [apply Nat.leb_le in E1; apply Nat.leb_gt in E2
          |apply Nat.leb_gt in E1; apply Nat.leb_le in E2]; lia.
Qed.

Lemma fill_fprs (p : ptr) (n a : nat) (s : State) :
  (a + n <= kNumberOfFloatRegisters)%nat ->
  exists s',
    for_each (seq a n) (fun i => set_fpr i p) s = Ok tt s' /\
    gprs_ (ctx s') = gprs_ (ctx s) /\ esp_ (ctx s') = esp_ (ctx s) /\
    eip_ (ctx s') = eip_ (ctx s) /\ stack s' = stack s /\
    forall k, fprs_ (ctx s') k =
              if (a <=? k)%nat && (k <? a + n)%nat then p else fprs_ (ctx s) k.
Proof.
  revert a s. induction n as [|n IH]; intros a s Hb.
  - exists s. repeat split; try reflexivity.
    intros k. destruct (a <=? k)%nat eqn:E1, (k <? a + 0)%nat eqn:E2; try reflexivity.
    apply Nat.leb_le in E1. apply Nat.ltb_lt in E2. lia.
  - unfold for_each in *. simpl seq. simpl for_loop.
    assert (Ha : (a <? kNumberOfFloatRegisters)%nat = true) by (apply Nat.ltb_lt; lia).
    destruct (IH (S a) (mkState (mkContext (gprs_ (ctx s)) (upd (fprs_ (ctx s)) a p)
                                           (esp_ (ctx s)) (eip_ (ctx s))) (stack s)))
      as (s' & Hrun & Hf & He & Hi & Hs & Hg); [lia|].
    exists s'. split.
    + erewrite bind_Ok; [exact Hrun|]. unfold set_fpr. now rewrite Ha.
    + cbn [ctx gprs_ fprs_ esp_ eip_ stack] in Hf, He, Hi, Hs, Hg. repeat split; try assumption.
      intros k. rewrite Hg.
      destruct (Nat.eq_dec k a) as [->|Hk].
      * rewrite upd_eq.
        replace (S a <=? a)%nat with false by (symmetry; apply Nat.leb_gt; lia).
        replace (a <=? a)%nat with true by (symmetry; apply Nat.leb_le; lia).
        replace (a <? a + S n)%nat with true by (symmetry; apply Nat.ltb_lt; lia).
        reflexivity.
      * rewrite upd_neq by assumption.
        replace (a + S n)%nat with (S a + n)%nat by lia.
        destruct (S a <=? k)%nat eqn:E1, (a <=? k)%nat eqn:E2; try reflexivity;
          [apply Nat.leb_le in E1; apply Nat.leb_gt in E2
          |apply Nat.leb_gt in E1; apply Nat.leb_le in E2]; lia.
Qed.

(** ** [Reset] *)

Lemma Reset_runs (s : State) :
  exists s',
    Reset s = Ok tt s' /\
    (forall k, gprs_ (ctx s') k =
               if Nat.eqb k ESP then addr_esp_
               else if (k <? kNumberOfCpuRegisters)%nat then nullptr
                    else gprs_ (ctx s) k) /\
    (forall k, fprs_ (ctx s') k =
               if (k <? kNumberOfFloatRegisters)%nat then nullptr
               else fprs_ (ctx s) k) /\
    esp_ (ctx s') = to_uintptr (kBadGprBase + Z.of_nat ESP) /\
    eip_ (ctx s') = to_uintptr (kBadGprBase + Z.of_nat kNumberOfCpuRegisters) /\
    stack s' = stack s.
Proof.
  destruct (fill_gprs nullptr kNumberOfCpuRegisters 0 s) as (s1 & R1 & F1 & E1 & I1 & S1 & G1);
    [reflexivity|].
  destruct (fill_fprs nullptr kNumberOfFloatRegisters 0 s1) as (s2 & R2 & G2 & E2 & I2 & S2 & F2);
    [reflexivity|].
  eexists. split.
  - unfold Reset.
    erewrite bind_Ok by exact R1. erewrite bind_Ok by exact R2.
    erewrite bind_Ok by reflexivity. erewrite bind_Ok by reflexivity.
    reflexivity.
  - cbn [ctx gprs_ fprs_ esp_ eip_ stack]. repeat split.
    + intros k. unfold upd. destruct (Nat.eqb k ESP); [reflexivity|].
      rewrite G2, G1. reflexivity.
    + intros k. rewrite F2, F1. reflexivity.
    + congruence.
Qed.

(** C4. After [Reset()] every general-purpose slot except the stack-pointer
    slot is unset and every floating-point slot is unset; the stack-pointer
    slot points at the context's own [esp_] scalar; [esp_] and [eip_] hold
    the debug values [kBadGprBase + ESP] and
    [kBadGprBase + kNumberOfCpuRegisters] (as [uintptr_t] values, hence
    exactly base plus index whenever that sum is representable); the stack
    itself is not touched.  The two debug values are plain [uintptr_t]
    values: nothing is stated, or done by the code, to keep them apart from
    the addresses of stack words. *)
Theorem Reset_clears_slots_and_sets_debug_values (s : State) :
  exists s',
    Reset s = Ok tt s' /\
    (forall i, (i < kNumberOfCpuRegisters)%nat -> i <> ESP ->
               gprs_ (ctx s') i = nullptr) /\
    (forall k, (k < kNumberOfFloatRegisters)%nat -> fprs_ (ctx s') k = nullptr) /\
    gprs_ (ctx s') ESP = addr_esp_ /\
    esp_ (ctx s') = to_uintptr (kBadGprBase + Z.of_nat ESP) /\
    eip_ (ctx s') = to_uintptr (kBadGprBase + Z.of_nat kNumberOfCpuRegisters) /\
    (0 <= kBadGprBase -> kBadGprBase + Z.of_nat kNumberOfCpuRegisters < 2 ^ 32 ->
     esp_ (ctx s') = kBadGprBase + Z.of_nat ESP /\
     eip_ (ctx s') = kBadGprBase + Z.of_nat kNumberOfCpuRegisters) /\
    read_word s' (gprs_ (ctx s') ESP) = Some (esp_ (ctx s')) /\
    stack s' = stack s.
Proof.
  destruct (Reset_runs s) as (s' & R & G & F & E & I & S).
  exists s'. split; [exact R|].
  split; [|split; [|split; [|split; [|split; [|split; [|split]]]]]].
  - intros i Hi Hne. rewrite G.
    apply Nat.eqb_neq in Hne as ->. apply Nat.ltb_lt in Hi as ->. reflexivity.
  - intros k Hk. rewrite F. apply Nat.ltb_lt in Hk as ->. reflexivity.
  - rewrite G. reflexivity.
  - exact E.
  - exact I.
  - intros H0 H1. rewrite E, I. unfold to_uintptr.
    unfold ESP, kNumberOfCpuRegisters in *.
    rewrite !Z.mod_small by lia. split; reflexivity.
  - rewrite G. reflexivity.
  - exact S.
Qed.

(** ** [SmashCallerSaves] *)

Lemma SmashCallerSaves_runs (s : State) :
  exists s',
    SmashCallerSaves s = Ok tt s' /\
    (forall k, gprs_ (ctx s') k =
               if Nat.eqb k EAX || Nat.eqb k EDX then addr_gZero
               else if Nat.eqb k ECX || Nat.eqb k EBX then nullptr
                    else gprs_ (ctx s) k) /\
    (forall k, fprs_ (ctx s') k =
               if (k <? kNumberOfFloatRegisters)%nat then nullptr
               else fprs_ (ctx s) k) /\
    esp_ (ctx s') = esp_ (ctx s) /\
    eip_ (ctx s') = eip_ (ctx s) /\
    stack s' = stack s.
Proof.
  pose (s1 := mkState
                (mkContext
                   (upd (upd (upd (upd (gprs_ (ctx s)) EAX addr_gZero) EDX addr_gZero)
                             ECX nullptr) EBX nullptr)
                   (fprs_ (ctx s)) (esp_ (ctx s)) (eip_ (ctx s)))
                (stack s)).
  destruct (fill_fprs nullptr kNumberOfFloatRegisters 0 s1) as (s2 & R2 & G2 & E2 & I2 & S2 & F2);
    [reflexivity|].
  exists s2. split.
  - unfold SmashCallerSaves.
    do 4 (erewrite bind_Ok by reflexivity). exact R2.
  - split; [|split; [|split; [|split]]]; try assumption.
    intros k. rewrite G2. subst s1. cbn [ctx gprs_]. unfold upd.
      destruct k as [|[|[|[|k]]]]; reflexivity.
Qed.

(** C5. After [SmashCallerSaves()] the integer-result registers EAX and EDX
    point at the constant [gZero], so reading through them yields 0; the
    other caller-saved general-purpose registers ECX and EBX are unset; and
    every floating-point slot is unset. *)
Theorem SmashCallerSaves_zero_result_and_clears (s : State) :
  exists s',
    SmashCallerSaves s = Ok tt s' /\
    gprs_ (ctx s') EAX = addr_gZero /\
    gprs_ (ctx s') EDX = addr_gZero /\
    read_word s' (gprs_ (ctx s') EAX) = Some 0 /\
    read_word s' (gprs_ (ctx s') EDX) = Some 0 /\
    gprs_ (ctx s') ECX = nullptr /\
    gprs_ (ctx s') EBX = nullptr /\
    (forall k, (k < kNumberOfFloatRegisters)%nat -> fprs_ (ctx s') k = nullptr).
Proof.
  destruct (SmashCallerSaves_runs s) as (s' & R & G & F & _).
  exists s'. split; [exact R|].
  repeat split; try (rewrite G; reflexivity).
  intros k Hk. rewrite F. apply Nat.ltb_lt in Hk as ->. reflexivity.
Qed.

(** C9. [SmashCallerSaves] rewrites only the EAX, EDX, ECX and EBX slots and
    the floating-point slots: the ESP, EBP, ESI and EDI bindings, the [esp_]
    and [eip_] scalars and the stack words are what they were before. *)
Theorem SmashCallerSaves_preserves_callee_saves (s : State) :
  exists s',
    SmashCallerSaves s = Ok tt s' /\
    gprs_ (ctx s') ESP = gprs_ (ctx s) ESP /\
    gprs_ (ctx s') EBP = gprs_ (ctx s) EBP /\
    gprs_ (ctx s') ESI = gprs_ (ctx s) ESI /\
    gprs_ (ctx s') EDI = gprs_ (ctx s) EDI /\
    esp_ (ctx s') = esp_ (ctx s) /\
    eip_ (ctx s') = eip_ (ctx s) /\
    stack s' = stack s.
Proof.
  destruct (SmashCallerSaves_runs s) as (s' & R & G & _ & E & I & S).
  exists s'. split; [exact R|].
  repeat split; try assumption; rewrite G; reflexivity.
Qed.

(** ** [SetGPR] and [SetFPR] *)

Lemma SetGPR_unfold (reg : nat) (v : Z) (s : State) :
  SetGPR reg v s =
  if negb (reg <? kNumberOfCpuRegisters)%nat then Abort (Fatal CHECK_LT_failed) s
  else if kEnableDChecks && negb (IsAccessibleGPR reg s) then Abort (Fatal DCHECK_failed) s
  else if ptr_eqb (gprs_ (ctx s) reg) addr_gZero then Abort (Fatal CHECK_NE_failed) s
  else store (gprs_ (ctx s) reg) v s.
Proof.
  unfold SetGPR, bind, CHECK_LT, DCHECK, CHECK_NE, get_gpr.
  destruct (reg <? kNumberOfCpuRegisters)%nat; cbn [negb]; [|reflexivity].
  destruct (kEnableDChecks && negb (IsAccessibleGPR reg s)); [reflexivity|].
  destruct (ptr_eqb (gprs_ (ctx s) reg) addr_gZero); reflexivity.
Qed.

Lemma SetFPR_unfold (reg : nat) (v : Z) (s : State) :
  SetFPR reg v s =
  if negb (reg <? kNumberOfFloatRegisters)%nat then Abort (Fatal CHECK_LT_failed) s
  else if kEnableDChecks && negb (IsAccessibleFPR reg s) then Abort (Fatal DCHECK_failed) s
  else if ptr_eqb (fprs_ (ctx s) reg) addr_gZero then Abort (Fatal CHECK_NE_failed) s
  else store (fprs_ (ctx s) reg) v s.
Proof.
  unfold SetFPR, bind, CHECK_LT, DCHECK, CHECK_NE, get_fpr.
  destruct (reg <? kNumberOfFloatRegisters)%nat; cbn [negb]; [|reflexivity].
  destruct (kEnableDChecks && negb (IsAccessibleFPR reg s)); [reflexivity|].
  destruct (ptr_eqb (fprs_ (ctx s) reg) addr_gZero); reflexivity.
Qed.

(** A store either fails on the spot or changes one word and no binding. *)
Lemma store_cases (p : ptr) (v : Z) (s : State) :
  (exists f, store p v s = Abort f s /\ (p = nullptr \/ p = addr_gZero)) \/
  (exists s', store p v s = Ok tt s' /\ p <> nullptr /\ p <> addr_gZero /\
              read_word s' p = Some v /\
              gprs_ (ctx s') = gprs_ (ctx s) /\ fprs_ (ctx s') = fprs_ (ctx s) /\
              eip_ (ctx s') = eip_ (ctx s)).
Proof.
  destruct p as [| | |a].
  - left. exists NullDereference. split; [reflexivity|now left].
  - right. eexists. split; [reflexivity|].
    repeat split; discriminate.
  - left. exists ReadOnlyWrite. split; [reflexivity|now right].
  - right. eexists. split; [reflexivity|].
    split; [discriminate|]. split; [discriminate|].
    split; [|repeat split].
    unfold read_word, load. cbn [stack]. now rewrite updZ_eq.
Qed.

Lemma SetGPR_keeps_bindings (reg : nat) (v : Z) (s s' : State) :
  SetGPR reg v s = Ok tt s' ->
  gprs_ (ctx s') = gprs_ (ctx s) /\ fprs_ (ctx s') = fprs_ (ctx s).
Proof.
  rewrite SetGPR_unfold.
  destruct (negb _); [discriminate|]. destruct (_ && _); [discriminate|].
  destruct (ptr_eqb _ _); [discriminate|].
  destruct (store_cases (gprs_ (ctx s) reg) v s) as [(f & E & _)|(s1 & E & _ & _ & _ & G & F & _)];
    rewrite E; intros H; [discriminate|].
  injection H as <-. now split.
Qed.

Lemma SetFPR_keeps_bindings (reg : nat) (v : Z) (s s' : State) :
  SetFPR reg v s = Ok tt s' ->
  gprs_ (ctx s') = gprs_ (ctx s) /\ fprs_ (ctx s') = fprs_ (ctx s).
Proof.
  rewrite SetFPR_unfold.
  destruct (negb _); [discriminate|]. destruct (_ && _); [discriminate|].
  destruct (ptr_eqb _ _); [discriminate|].
  destruct (store_cases (fprs_ (ctx s) reg) v s) as [(f & E & _)|(s1 & E & _ & _ & _ & G & F & _)];
    rewrite E; intros H; [discriminate|].
  injection H as <-. now split.
Qed.

(** C2. [SetGPR(reg, v)] aborts on [CHECK_LT] when [reg] is out of range;
    it never returns when the slot is unset (the debug assertion aborts, or
    else the store goes through [nullptr]) or when the slot points at the
    protected constant [gZero] (the debug assertion or [CHECK_NE] aborts);
    otherwise, the debug assertion permitting, it returns after writing [v]
    through the slot, so that the word the slot refers to reads [v], and no
    binding has changed.  [SetFPR] behaves alike on the floating-point
    slots. *)
Theorem SetGPR_SetFPR_checks_then_writes_through (reg : nat) (v : Z) (s : State) :
  ((kNumberOfCpuRegisters <= reg)%nat ->
     SetGPR reg v s = Abort (Fatal CHECK_LT_failed) s) /\
  ((reg < kNumberOfCpuRegisters)%nat -> gprs_ (ctx s) reg = nullptr ->
     SetGPR reg v s = Abort (Fatal DCHECK_failed) s \/
     SetGPR reg v s = Abort NullDereference s) /\
  ((reg < kNumberOfCpuRegisters)%nat -> gprs_ (ctx s) reg = addr_gZero ->
     SetGPR reg v s = Abort (Fatal DCHECK_failed) s \/
     SetGPR reg v s = Abort (Fatal CHECK_NE_failed) s) /\
  ((reg < kNumberOfCpuRegisters)%nat ->
   gprs_ (ctx s) reg <> nullptr -> gprs_ (ctx s) reg <> addr_gZero ->
   kEnableDChecks && negb (IsAccessibleGPR reg s) = false ->
     exists s', SetGPR reg v s = Ok tt s' /\
                read_word s' (gprs_ (ctx s) reg) = Some v /\
                gprs_ (ctx s') = gprs_ (ctx s) /\ fprs_ (ctx s') = fprs_ (ctx s)) /\
  ((kNumberOfFloatRegisters <= reg)%nat ->
     SetFPR reg v s = Abort (Fatal CHECK_LT_failed) s) /\
  ((reg < kNumberOfFloatRegisters)%nat -> fprs_ (ctx s) reg = nullptr ->
     SetFPR reg v s = Abort (Fatal DCHECK_failed) s \/
     SetFPR reg v s = Abort NullDereference s) /\
  ((reg < kNumberOfFloatRegisters)%nat -> fprs_ (ctx s) reg = addr_gZero ->
     SetFPR reg v s = Abort (Fatal DCHECK_failed) s \/
     SetFPR reg v s = Abort (Fatal CHECK_NE_failed) s) /\
  ((reg < kNumberOfFloatRegisters)%nat ->
   fprs_ (ctx s) reg <> nullptr -> fprs_ (ctx s) reg <> addr_gZero ->
   kEnableDChecks && negb (IsAccessibleFPR reg s) = false ->
     exists s', SetFPR reg v s = Ok tt s' /\
                read_word s' (fprs_ (ctx s) reg) = Some v /\
                gprs_ (ctx s') = gprs_ (ctx s) /\ fprs_ (ctx s') = fprs_ (ctx s)).
Proof.
  rewrite !SetGPR_unfold, !SetFPR_unfold.
  split; [|split; [|split; [|split; [|split; [|split; [|split]]]]]].
  - intros H. apply Nat.ltb_ge in H as ->. reflexivity.
  - intros H E. apply Nat.ltb_lt in H as ->. rewrite E. cbn [negb ptr_eqb].
    destruct (_ && _); [now left|now right].
  - intros H E. apply Nat.ltb_lt in H as ->. rewrite E. cbn [negb ptr_eqb].
    destruct (_ && _); [now left|now right].
  - intros H N NZ D. apply Nat.ltb_lt in H as ->. rewrite D. cbn [negb].
    apply ptr_eqb_neq in NZ as HZ; rewrite HZ.
    destruct (store_cases (gprs_ (ctx s) reg) v s)
      as [(f & _ & [E|E])|(s' & E & _ & _ & R & G & F & _)]; try contradiction.
    exists s'. rewrite E. now repeat split.
  - intros H. apply Nat.ltb_ge in H as ->. reflexivity.
  - intros H E. apply Nat.ltb_lt in H as ->. rewrite E. cbn [negb ptr_eqb].
    destruct (_ && _); [now left|now right].
  - intros H E. apply Nat.ltb_lt in H as ->. rewrite E. cbn [negb ptr_eqb].
    destruct (_ && _); [now left|now right].
  - intros H N NZ D. apply Nat.ltb_lt in H as ->. rewrite D. cbn [negb].
    apply ptr_eqb_neq in NZ as HZ; rewrite HZ.
    destruct (store_cases (fprs_ (ctx s) reg) v s)
      as [(f & _ & [E|E])|(s' & E & _ & _ & R & G & F & _)]; try contradiction.
    exists s'. rewrite E. now repeat split.
Qed.

(** C10. When [SetGPR] or [SetFPR] fails a check -- the index is out of
    range, or the slot points at the protected constant [gZero] -- it aborts
    in the very state it was called in: bindings, scalars and stack words are
    all unchanged, since every check comes before the write.  The same holds
    for any other way these functions can fail. *)
Theorem SetGPR_SetFPR_failed_check_changes_nothing (reg : nat) (v : Z) (s : State) :
  ((kNumberOfCpuRegisters <= reg)%nat \/ gprs_ (ctx s) reg = addr_gZero ->
     exists c, SetGPR reg v s = Abort (Fatal c) s) /\
  (forall f s', SetGPR reg v s = Abort f s' -> s' = s) /\
  ((kNumberOfFloatRegisters <= reg)%nat \/ fprs_ (ctx s) reg = addr_gZero ->
     exists c, SetFPR reg v s = Abort (Fatal c) s) /\
  (forall f s', SetFPR reg v s = Abort f s' -> s' = s).
Proof.
  rewrite !SetGPR_unfold, !SetFPR_unfold.
  split; [|split; [|split]].
  - intros H. destruct (negb _) eqn:E1; [eauto|].
    destruct (_ && _); [eauto|].
    destruct H as [H|H].
    + apply Nat.ltb_ge in H. rewrite H in E1. discriminate.
    + rewrite H. cbn [ptr_eqb]. eauto.
  - intros f s'. destruct (negb _); [intros H; now injection H|].
    destruct (_ && _); [intros H; now injection H|].
    destruct (ptr_eqb _ _); [intros H; now injection H|].
    destruct (store_cases (gprs_ (ctx s) reg) v s) as [(f' & E & _)|(s1 & E & _)];
      rewrite E; intros H; [now injection H|discriminate].
  - intros H. destruct (negb _) eqn:E1; [eauto|].
    destruct (_ && _); [eauto|].
    destruct H as [H|H].
    + apply Nat.ltb_ge in H. rewrite H in E1. discriminate.
    + rewrite H. cbn [ptr_eqb]. eauto.
  - intros f s'. destruct (negb _); [intros H; now injection H|].
    destruct (_ && _); [intros H; now injection H|].
    destruct (ptr_eqb _ _); [intros H; now injection H|].
    destruct (store_cases (fprs_ (ctx s) reg) v s) as [(f' & E & _)|(s1 & E & _)];
      rewrite E; intros H; [now injection H|discriminate].
Qed.

(** ** Spill masks *)

Lemma spilled_testbit (mask : Z) (i : nat) :
  spilled mask i = Z.testbit mask (Z.of_nat i).
Proof.
  unfold spilled.
  change 1 with (Z.ones 1). rewrite Z.land_ones by lia.
  change (2 ^ 1) with 2. rewrite <- Z.bit0_mod.
  rewrite Z.shiftr_spec by lia. rewrite Z.add_0_l.
  now destruct (Z.testbit mask (Z.of_nat i)).
Qed.

Lemma count_bits_bounds (mask : Z) (n a : nat) :
  0 <= count_bits mask a n <= Z.of_nat n.
Proof.
  revert a. induction n as [|n IH]; intros a; cbn [count_bits]; [lia|].
  specialize (IH (S a)). destruct (Z.testbit mask (Z.of_nat a)); lia.
Qed.

Lemma count_bits_app (mask : Z) (n m a : nat) :
  count_bits mask a (n + m) = count_bits mask a n + count_bits mask (a + n) m.
Proof.
  revert a. induction n as [|n IH]; intros a; cbn [count_bits Nat.add].
  - now rewrite Nat.add_0_r.
  - rewrite IH. replace (S a + n)%nat with (a + S n)%nat by lia. lia.
Qed.

Lemma count_bits_zero (mask : Z) (n a i : nat) :
  count_bits mask a n = 0 -> (a <= i < a + n)%nat -> spilled mask i = false.
Proof.
  revert a. induction n as [|n IH]; intros a H Hi; [lia|].
  cbn [count_bits] in H.
  pose proof (count_bits_bounds mask n (S a)) as B.
  destruct (Nat.eq_dec i a) as [->|Hne].
  - rewrite spilled_testbit. destruct (Z.testbit mask (Z.of_nat a)); [lia|reflexivity].
  - apply (IH (S a)); [|lia]. destruct (Z.testbit mask (Z.of_nat a)); lia.
Qed.

Lemma count_bits_step (mask : Z) (a d : nat) :
  spilled mask a = true ->
  count_bits mask a (S d) = 1 + count_bits mask (S a) d.
Proof. intros H. cbn [count_bits]. rewrite spilled_testbit in H. now rewrite H. Qed.

Lemma count_bits_skip (mask : Z) (a d : nat) :
  spilled mask a = false ->
  count_bits mask a (S d) = count_bits mask (S a) d.
Proof. intros H. cbn [count_bits]. rewrite spilled_testbit in H. now rewrite H. Qed.

Lemma POPCOUNT_bounds (mask : Z) : 0 <= POPCOUNT mask <= 32.
Proof. apply (count_bits_bounds mask 32 0). Qed.

(** The set bits below [i] are among the 32 bits [POPCOUNT] counts, and bit
    [i] itself is one more. *)
Lemma count_below_POPCOUNT (mask : Z) (i : nat) :
  (i < 32)%nat -> spilled mask i = true ->
  count_bits mask 0 i + 1 <= POPCOUNT mask.
Proof.
  intros Hi Hs. unfold POPCOUNT.
  replace 32%nat with (i + S (31 - i))%nat by lia.
  rewrite count_bits_app. cbn [Nat.add].
  rewrite count_bits_step by assumption.
  pose proof (count_bits_bounds mask (31 - i) (S i)). lia.
Qed.

Lemma count_bits_mono (mask : Z) (i i' : nat) :
  (i < i')%nat -> spilled mask i = true ->
  count_bits mask 0 i + 1 <= count_bits mask 0 i'.
Proof.
  intros Hi Hs.
  replace i' with (i + S (i' - i - 1))%nat by lia.
  rewrite count_bits_app. cbn [Nat.add].
  rewrite count_bits_step by assumption.
  pose proof (count_bits_bounds mask (i' - i - 1) (S i)). lia.
Qed.

Lemma to_int_small (z : Z) : - 2 ^ 31 <= z < 2 ^ 31 -> to_int z = z.
Proof.
  intros H. unfold to_int, to_uintptr. cbv zeta.
  change (2 ^ 31) with 2147483648 in *. change (2 ^ 32) with 4294967296.
  destruct (Z.ltb_spec (z mod 4294967296) 2147483648) as [L|L];
    Z.div_mod_to_equations; lia.
Qed.

Lemma to_uintptr_small (z : Z) : 0 <= z < 2 ^ 32 -> to_uintptr z = z.
Proof. intros H. unfold to_uintptr. now apply Z.mod_small. Qed.

(** ** [FillCalleeSaves]: the general-purpose loop *)

Lemma FillCalleeSaves_unfold (fr : StackVisitor) :
  FillCalleeSaves fr = (fill_core fr ;; fill_fp fr).
Proof. reflexivity. Qed.

Lemma core_loop_runs (fr : StackVisitor) (n a : nat) (j : Z) (s : State) :
  let core := CoreSpillMask (GetQuickFrameInfo fr) in
  (a + n <= kNumberOfCpuRegisters)%nat ->
  exists s',
    for_loop (seq a n) (core_body fr) j s = Ok (j + count_bits core a n) s' /\
    fprs_ (ctx s') = fprs_ (ctx s) /\ esp_ (ctx s') = esp_ (ctx s) /\
    eip_ (ctx s') = eip_ (ctx s) /\ stack s' = stack s /\
    forall k,
      gprs_ (ctx s') k =
      if (a <=? k)%nat && (k <? a + n)%nat && spilled core k then
        CalleeSaveAddress fr
          (to_int (POPCOUNT core - (j + count_bits core a (k - a))))
          (FrameSizeInBytes (GetQuickFrameInfo fr))
      else gprs_ (ctx s) k.
Proof.
  intros core. revert a j s. induction n as [|n IH]; intros a j s Hb.
  - exists s. cbn [seq for_loop count_bits]. rewrite Z.add_0_r.
    repeat split; try reflexivity.
    intros k. destruct (a <=? k)%nat eqn:E1, (k <? a + 0)%nat eqn:E2; try reflexivity.
    apply Nat.leb_le in E1. apply Nat.ltb_lt in E2. lia.
  - cbn [seq for_loop].
    assert (Ha : (a <? kNumberOfCpuRegisters)%nat = true) by (apply Nat.ltb_lt; lia).
    destruct (spilled core a) eqn:Sa.
    + set (p := CalleeSaveAddress fr (to_int (POPCOUNT core - j))
                                  (FrameSizeInBytes (GetQuickFrameInfo fr))).
      destruct (IH (S a) (j + 1)
                   (mkState (mkContext (upd (gprs_ (ctx s)) a p) (fprs_ (ctx s))
                                       (esp_ (ctx s)) (eip_ (ctx s))) (stack s)))
        as (s' & R & F & E & I & St & G); [lia|].
      cbn [ctx gprs_ fprs_ esp_ eip_ stack] in F, E, I, St, G. subst p.
      exists s'. split; [|repeat split; try assumption].
      * erewrite bind_Ok.
        2:{ unfold core_body. cbv zeta. fold core. rewrite Sa.
            unfold bind, set_gpr. rewrite Ha. reflexivity. }
        cbv beta. rewrite R. f_equal. rewrite count_bits_step by assumption. lia.
      * intros k. rewrite G. destruct (Nat.eq_dec k a) as [->|Hk].
        -- rewrite upd_eq, Sa, Nat.sub_diag. cbn [count_bits]. rewrite Z.add_0_r.
           replace (S a <=? a)%nat with false by (symmetry; apply Nat.leb_gt; lia).
           replace (a <=? a)%nat with true by (symmetry; apply Nat.leb_le; lia).
           replace (a <? a + S n)%nat with true by (symmetry; apply Nat.ltb_lt; lia).
           reflexivity.
        -- rewrite upd_neq by assumption.
           replace (a + S n)%nat with (S a + n)%nat by lia.
           destruct (S a <=? k)%nat eqn:E1.
           ++ apply Nat.leb_le in E1.
              replace (a <=? k)%nat with true by (symmetry; apply Nat.leb_le; lia).
              replace (k - a)%nat with (S (k - S a)) by lia.
              rewrite count_bits_step by assumption.
              replace (j + 1 + count_bits core (S a) (k - S a))
                with (j + (1 + count_bits core (S a) (k - S a))) by lia.
              reflexivity.
           ++ apply Nat.leb_gt in E1.
              replace (a <=? k)%nat with false by (symmetry; apply Nat.leb_gt; lia).
              reflexivity.
    + destruct (IH (S a) j s) as (s' & R & F & E & I & St & G); [lia|].
      exists s'. split; [|repeat split; try assumption].
      * erewrite bind_Ok by (unfold core_body; cbv zeta; fold core; rewrite Sa; reflexivity).
        cbv beta. rewrite R. f_equal. now rewrite count_bits_skip.
      * intros k. rewrite G. destruct (Nat.eq_dec k a) as [->|Hk].
        -- rewrite Sa, !andb_false_r.
           replace (S a <=? a)%nat with false by (symmetry; apply Nat.leb_gt; lia).
           reflexivity.
        -- replace (a + S n)%nat with (S a + n)%nat by lia.
           destruct (S a <=? k)%nat eqn:E1.
           ++ apply Nat.leb_le in E1.
              replace (a <=? k)%nat with true by (symmetry; apply Nat.leb_le; lia).
              replace (k - a)%nat with (S (k - S a)) by lia.
              now rewrite count_bits_skip.
           ++ apply Nat.leb_gt in E1.
              replace (a <=? k)%nat with false by (symmetry; apply Nat.leb_gt; lia).
              reflexivity.
Qed.

Lemma fill_core_runs (fr : StackVisitor) (s : State) :
  exists s',
    fill_core fr s = Ok tt s' /\
    fprs_ (ctx s') = fprs_ (ctx s) /\ esp_ (ctx s') = esp_ (ctx s) /\
    eip_ (ctx s') = eip_ (ctx s) /\ stack s' = stack s /\
    forall k,
      gprs_ (ctx s') k =
      if (k <? kNumberOfCpuRegisters)%nat
         && spilled (CoreSpillMask (GetQuickFrameInfo fr)) k then
        CalleeSaveAddress fr (core_spill_position fr k)
                          (FrameSizeInBytes (GetQuickFrameInfo fr))
      else gprs_ (ctx s) k.
Proof.
  unfold fill_core, when.
  set (core := CoreSpillMask (GetQuickFrameInfo fr)).
  pose proof (POPCOUNT_bounds core) as PB.
  destruct (Z.ltb_spec 0 (POPCOUNT core)) as [Hpos|Hzero].
  - destruct (core_loop_runs fr kNumberOfCpuRegisters 0 2 s) as (s' & R & F & E & I & S & G);
      [reflexivity|].
    exists s'. split; [erewrite bind_Ok by exact R; reflexivity|].
    repeat split; try assumption.
    intros k. rewrite G. fold core. cbn [Nat.leb andb Nat.add]. rewrite Nat.sub_0_r.
    destruct (k <? kNumberOfCpuRegisters)%nat eqn:Hk; [|reflexivity].
    destruct (spilled core k) eqn:Sk; [|reflexivity].
    cbn [andb]. apply Nat.ltb_lt in Hk. unfold kNumberOfCpuRegisters in Hk.
    pose proof (count_bits_bounds core k 0) as CB.
    rewrite to_int_small by (change (2 ^ 31) with 2147483648; lia).
    unfold core_spill_position. fold core.
    f_equal. lia.
  - exists s. split; [reflexivity|]. repeat split.
    intros k. destruct (k <? kNumberOfCpuRegisters)%nat eqn:Hk; [|reflexivity].
    apply Nat.ltb_lt in Hk. unfold kNumberOfCpuRegisters in Hk.
    rewrite (count_bits_zero core 32 0 k); [reflexivity| |lia].
    unfold POPCOUNT in *. lia.
Qed.

(** ** [FillCalleeSaves]: the floating-point loop *)

(** One iteration on a spilled XMM register: either both words are bound, or
    the first out-of-range index stops the run. *)
Lemma fp_body_spilled (fr : StackVisitor) (i : nat) (j : Z) (s : State) :
  let info := GetQuickFrameInfo fr in
  let base := POPCOUNT (CoreSpillMask info) + to_uintptr (POPCOUNT (FpSpillMask info) * 2) in
  spilled (FpSpillMask info) i = true ->
  ((2 * i + 1 < kNumberOfFloatRegisters)%nat /\
   fp_body fr i j s =
   Ok (to_uintptr (j + 2))
      (mkState
         (mkContext (gprs_ (ctx s))
            (upd (upd (fprs_ (ctx s)) (2 * i)
                      (CalleeSaveAddress fr (to_int (base - j)) (FrameSizeInBytes info)))
                 (2 * i + 1)
                 (CalleeSaveAddress fr (to_int (base - j - 1)) (FrameSizeInBytes info)))
            (esp_ (ctx s)) (eip_ (ctx s)))
         (stack s))) \/
  ((kNumberOfFloatRegisters <= 2 * i + 1)%nat /\
   fp_body fr i j s = Abort OutOfBounds s).
Proof.
  intros info base Hs. unfold fp_body. cbv zeta. fold info. rewrite Hs.
  unfold bind, set_fpr, ret, kNumberOfFloatRegisters.
  destruct (2 * i <? 16)%nat eqn:E0.
  - cbn [ctx fprs_ gprs_ esp_ eip_ stack].
    destruct (2 * i + 1 <? 16)%nat eqn:E1.
    + left. apply Nat.ltb_lt in E1. split; [assumption|reflexivity].
    + apply Nat.ltb_lt in E0. apply Nat.ltb_ge in E1. lia.
  - right. apply Nat.ltb_ge in E0. split; [lia|reflexivity].
Qed.

(** Whatever the outcome, the loop touches nothing but the slots of spilled
    XMM registers. *)
Lemma fp_loop_frame (fr : StackVisitor) (n a : nat) (j : Z) (s : State) :
  let r := for_loop (seq a n) (fp_body fr) j s in
  gprs_ (ctx (state_of r)) = gprs_ (ctx s) /\
  esp_ (ctx (state_of r)) = esp_ (ctx s) /\
  eip_ (ctx (state_of r)) = eip_ (ctx s) /\
  stack (state_of r) = stack s /\
  forall k, spilled (FpSpillMask (GetQuickFrameInfo fr)) (k / 2) = false ->
            fprs_ (ctx (state_of r)) k = fprs_ (ctx s) k.
Proof.
  cbv zeta. revert a j s. induction n as [|n IH]; intros a j s.
  - cbn [seq for_loop ret state_of]. repeat split.
  - cbn [seq for_loop].
    destruct (spilled (FpSpillMask (GetQuickFrameInfo fr)) a) eqn:Sa.
    + destruct (fp_body_spilled fr a j s Sa) as [[Hb R]|[Hb R]].
      * rewrite (bind_Ok _ _ _ _ _ R). cbv beta.
        match goal with |- context [for_loop _ _ ?j' ?s'] =>
          destruct (IH (S a) j' s') as (G & E & I & St & F) end.
        cbn [ctx gprs_ fprs_ esp_ eip_ stack] in G, E, I, St, F.
        repeat split; try assumption.
        intros k Hk. rewrite F by assumption.
        assert (k / 2 <> a)%nat by congruence.
        rewrite !upd_neq by lia. reflexivity.
      * rewrite (bind_Abort _ _ _ _ _ R). cbn [state_of]. repeat split.
    + assert (R : fp_body fr a j s = Ok j s).
      { unfold fp_body. cbv zeta. now rewrite Sa. }
      rewrite (bind_Ok _ _ _ _ _ R). cbv beta. apply IH.
Qed.

(** When every spilled XMM register has its two words inside [fprs_], the
    loop runs to its end and binds exactly those words. *)
Lemma fp_loop_runs (fr : StackVisitor) (n a : nat) (j : Z) (s : State) :
  let info := GetQuickFrameInfo fr in
  let fp := FpSpillMask info in
  let base := POPCOUNT (CoreSpillMask info) + to_uintptr (POPCOUNT fp * 2) in
  (forall i, (a <= i < a + n)%nat -> spilled fp i = true ->
             (2 * i + 1 < kNumberOfFloatRegisters)%nat) ->
  0 <= j -> j + 2 * Z.of_nat n < 2 ^ 32 ->
  exists s',
    for_loop (seq a n) (fp_body fr) j s = Ok (j + 2 * count_bits fp a n) s' /\
    forall k,
      fprs_ (ctx s') k =
      if (a <=? k / 2)%nat && (k / 2 <? a + n)%nat && spilled fp (k / 2) then
        CalleeSaveAddress fr
          (to_int (base - (j + 2 * count_bits fp a (k / 2 - a)) - Z.of_nat (k mod 2)))
          (FrameSizeInBytes info)
      else fprs_ (ctx s) k.
Proof.
  intros info fp base. revert a j s. induction n as [|n IH]; intros a j s Hin Hj0 Hj1.
  - exists s. cbn [seq for_loop count_bits]. rewrite Z.mul_0_r, Z.add_0_r.
    split; [reflexivity|].
    intros k. destruct (a <=? k / 2)%nat eqn:E1, (k / 2 <? a + 0)%nat eqn:E2; try reflexivity.
    apply Nat.leb_le in E1. apply Nat.ltb_lt in E2. lia.
  - cbn [seq for_loop].
    destruct (spilled fp a) eqn:Sa.
    + destruct (fp_body_spilled fr a j s Sa) as [[Hb R]|[Hb R]];
        [|specialize (Hin a ltac:(lia) Sa); lia].
      rewrite (bind_Ok _ _ _ _ _ R). cbv beta.
      rewrite to_uintptr_small by lia.
      match goal with |- context [for_loop _ _ _ ?s1] =>
        destruct (IH (S a) (j + 2) s1) as (s' & R' & F) end.
      { intros i Hi. apply Hin. lia. }
      { lia. }
      { lia. }
      cbn [ctx fprs_] in F. fold info in F. fold base in F.
      exists s'. split.
      * rewrite R'. f_equal. rewrite (count_bits_step fp a n Sa). lia.
      * intros k. rewrite F.
        replace (a + S n)%nat with (S a + n)%nat by lia.
        destruct (S a <=? k / 2)%nat eqn:E1.
        -- apply Nat.leb_le in E1.
           replace (a <=? k / 2)%nat with true by (symmetry; apply Nat.leb_le; lia).
           replace (k / 2 - a)%nat with (S (k / 2 - S a)) by lia.
           rewrite (count_bits_step fp a _ Sa).
           replace (j + 2 + 2 * count_bits fp (S a) (k / 2 - S a))
             with (j + 2 * (1 + count_bits fp (S a) (k / 2 - S a))) by lia.
           rewrite !upd_neq by lia. reflexivity.
        -- apply Nat.leb_gt in E1. cbn [andb].
           destruct (Nat.eq_dec (k / 2) a) as [Hk|Hk].
           ++ rewrite Hk, Sa, Nat.sub_diag. cbn [count_bits].
              replace (a <=? a)%nat with true by (symmetry; apply Nat.leb_le; lia).
              replace (a <? S a + n)%nat with true by (symmetry; apply Nat.ltb_lt; lia).
              cbn [andb].
              destruct (Nat.eq_dec k (2 * a + 1)) as [->|Hodd].
              ** rewrite upd_eq. f_equal. f_equal.
                 replace ((2 * a + 1) mod 2)%nat with 1%nat by lia. unfold base, fp. lia.
              ** assert (k = 2 * a)%nat as -> by lia.
                 rewrite upd_neq by lia. rewrite upd_eq. f_equal. f_equal.
                 replace ((2 * a) mod 2)%nat with 0%nat by lia. unfold base, fp. lia.
           ++ replace (a <=? k / 2)%nat with false by (symmetry; apply Nat.leb_gt; lia).
              cbn [andb]. rewrite !upd_neq by lia. reflexivity.
    + assert (R : fp_body fr a j s = Ok j s).
      { unfold fp_body. cbv zeta. fold info. fold fp. now rewrite Sa. }
      rewrite (bind_Ok _ _ _ _ _ R). cbv beta.
      destruct (IH (S a) j s) as (s' & R' & F).
      { intros i Hi. apply Hin. lia. }
      { lia. }
      { lia. }
      exists s'. split.
      * rewrite R'. f_equal. now rewrite (count_bits_skip fp a n Sa).
      * intros k. rewrite F.
        replace (a + S n)%nat with (S a + n)%nat by lia.
        destruct (S a <=? k / 2)%nat eqn:E1.
        -- apply Nat.leb_le in E1.
           replace (a <=? k / 2)%nat with true by (symmetry; apply Nat.leb_le; lia).
           replace (k / 2 - a)%nat with (S (k / 2 - S a)) by lia.
           now rewrite (count_bits_skip fp a _ Sa).
        -- apply Nat.leb_gt in E1. cbn [andb].
           destruct (Nat.eq_dec (k / 2) a) as [Hk|Hk].
           ++ rewrite Hk, Sa, !andb_false_r. reflexivity.
           ++ replace (a <=? k / 2)%nat with false by (symmetry; apply Nat.leb_gt; lia).
              reflexivity.
Qed.

Lemma fp_spills_in_bounds_spec (fr : StackVisitor) (i : nat) :
  fp_spills_in_bounds fr = true ->
  (i < kNumberOfFloatRegisters)%nat ->
  spilled (FpSpillMask (GetQuickFrameInfo fr)) i = true ->
  (2 * i + 1 < kNumberOfFloatRegisters)%nat.
Proof.
  intros H Hi Hs. unfold fp_spills_in_bounds in H.
  rewrite forallb_forall in H. specialize (H i).
  rewrite Hs in H. cbn [negb orb] in H.
  apply Nat.ltb_lt, H, in_seq. lia.
Qed.

Lemma fill_fp_frame (fr : StackVisitor) (s : State) :
  let r := fill_fp fr s in
  gprs_ (ctx (state_of r)) = gprs_ (ctx s) /\
  esp_ (ctx (state_of r)) = esp_ (ctx s) /\
  eip_ (ctx (state_of r)) = eip_ (ctx s) /\
  stack (state_of r) = stack s /\
  forall k, spilled (FpSpillMask (GetQuickFrameInfo fr)) (k / 2) = false ->
            fprs_ (ctx (state_of r)) k = fprs_ (ctx s) k.
Proof.
  cbv zeta. unfold fill_fp, when.
  destruct (0 <? POPCOUNT (FpSpillMask (GetQuickFrameInfo fr))).
  - pose proof (fp_loop_frame fr kNumberOfFloatRegisters 0 2 s) as H. cbv zeta in H.
    unfold bind.
    destruct (for_loop (seq 0 kNumberOfFloatRegisters) (fp_body fr) 2 s); exact H.
  - cbn [ret state_of]. repeat split.
Qed.

Lemma fill_fp_runs (fr : StackVisitor) (s : State) :
  fp_spills_in_bounds fr = true ->
  exists s',
    fill_fp fr s = Ok tt s' /\
    forall k,
      fprs_ (ctx s') k =
      if (k <? kNumberOfFloatRegisters)%nat
         && spilled (FpSpillMask (GetQuickFrameInfo fr)) (k / 2) then
        CalleeSaveAddress fr (fp_spill_position fr (k / 2) - Z.of_nat (k mod 2))
                          (FrameSizeInBytes (GetQuickFrameInfo fr))
      else fprs_ (ctx s) k.
Proof.
  intros Hin. unfold fill_fp, when.
  set (fp := FpSpillMask (GetQuickFrameInfo fr)).
  set (core := CoreSpillMask (GetQuickFrameInfo fr)).
  pose proof (POPCOUNT_bounds fp) as PF. pose proof (POPCOUNT_bounds core) as PC.
  destruct (Z.ltb_spec 0 (POPCOUNT fp)) as [Hpos|Hzero].
  - destruct (fp_loop_runs fr kNumberOfFloatRegisters 0 2 s) as (s' & R & F).
    { intros i Hi. apply fp_spills_in_bounds_spec; [assumption|lia]. }
    { lia. }
    { unfold kNumberOfFloatRegisters. change (2 ^ 32) with 4294967296. lia. }
    exists s'. split; [erewrite bind_Ok by exact R; reflexivity|].
    intros k. rewrite F. fold fp. fold core.
    cbn [Nat.leb andb Nat.add]. rewrite Nat.sub_0_r.
    destruct (spilled fp (k / 2)) eqn:Sk; [|now rewrite !andb_false_r].
    rewrite !andb_true_r.
    destruct (k / 2 <? kNumberOfFloatRegisters)%nat eqn:Hk2.
    + apply Nat.ltb_lt in Hk2.
      pose proof (fp_spills_in_bounds_spec fr (k / 2) Hin Hk2 Sk) as Hb.
      unfold kNumberOfFloatRegisters in *.
      replace (k <? 16)%nat with true by (symmetry; apply Nat.ltb_lt; lia).
      pose proof (count_bits_bounds fp (k / 2) 0) as CB.
      rewrite (to_uintptr_small (POPCOUNT fp * 2))
        by (change (2 ^ 32) with 4294967296; lia).
      rewrite to_int_small by (change (2 ^ 31) with 2147483648; lia).
      unfold fp_spill_position. fold fp. fold core. f_equal. lia.
    + apply Nat.ltb_ge in Hk2. unfold kNumberOfFloatRegisters in *.
      replace (k <? 16)%nat with false by (symmetry; apply Nat.ltb_ge; lia).
      reflexivity.
  - exists s. split; [reflexivity|].
    intros k. destruct (k <? kNumberOfFloatRegisters)%nat eqn:Hk; [|reflexivity].
    apply Nat.ltb_lt in Hk. unfold kNumberOfFloatRegisters in Hk.
    rewrite (count_bits_zero fp 32 0 (k / 2)); [reflexivity| |lia].
    unfold POPCOUNT in *. lia.
Qed.

(** ** [FillCalleeSaves] as a whole *)

(** Whether or not the floating-point loop runs to its end, the
    general-purpose slots end up decoded from the core mask, and nothing
    else than slots of spilled registers is written. *)
Lemma FillCalleeSaves_outcome (fr : StackVisitor) (s : State) :
  let r := FillCalleeSaves fr s in
  (forall k,
     gprs_ (ctx (state_of r)) k =
     if (k <? kNumberOfCpuRegisters)%nat
        && spilled (CoreSpillMask (GetQuickFrameInfo fr)) k then
       CalleeSaveAddress fr (core_spill_position fr k)
                         (FrameSizeInBytes (GetQuickFrameInfo fr))
     else gprs_ (ctx s) k) /\
  esp_ (ctx (state_of r)) = esp_ (ctx s) /\
  eip_ (ctx (state_of r)) = eip_ (ctx s) /\
  stack (state_of r) = stack s /\
  forall k, spilled (FpSpillMask (GetQuickFrameInfo fr)) (k / 2) = false ->
            fprs_ (ctx (state_of r)) k = fprs_ (ctx s) k.
Proof.
  cbv zeta. rewrite FillCalleeSaves_unfold.
  destruct (fill_core_runs fr s) as (s1 & R1 & F1 & E1 & I1 & St1 & G1).
  rewrite (bind_Ok _ _ _ _ _ R1).
  destruct (fill_fp_frame fr s1) as (G2 & E2 & I2 & St2 & F2).
  split; [|split; [|split; [|split]]]; try congruence.
  - intros k. rewrite G2. apply G1.
  - intros k Hk. rewrite F2 by assumption. now rewrite F1.
Qed.

Lemma FillCalleeSaves_runs (fr : StackVisitor) (s : State) :
  fp_spills_in_bounds fr = true ->
  exists s',
    FillCalleeSaves fr s = Ok tt s' /\
    forall k,
      fprs_ (ctx s') k =
      if (k <? kNumberOfFloatRegisters)%nat
         && spilled (FpSpillMask (GetQuickFrameInfo fr)) (k / 2) then
        CalleeSaveAddress fr (fp_spill_position fr (k / 2) - Z.of_nat (k mod 2))
                          (FrameSizeInBytes (GetQuickFrameInfo fr))
      else fprs_ (ctx s) k.
Proof.
  intros Hin. rewrite FillCalleeSaves_unfold.
  destruct (fill_core_runs fr s) as (s1 & R1 & F1 & _).
  destruct (fill_fp_runs fr s1 Hin) as (s' & R2 & F2).
  exists s'. split; [rewrite (bind_Ok _ _ _ _ _ R1); exact R2|].
  intros k. rewrite F2, F1. reflexivity.
Qed.

(** C1. For a frame whose core spill mask has [spill_count] set bits,
    [FillCalleeSaves] binds the register [i] that carries set bit number [k]
    (counting from 0, low to high) to the spill slot the frame reports for
    position [spill_count - k] less the two leading positions skipped for
    the saved return address.  The position lies between -1 and
    [spill_count - 2], and a higher-numbered spilled register gets a strictly
    smaller position: the lowest-numbered one sits farthest away. *)
Theorem FillCalleeSaves_binds_kth_core_spill (fr : StackVisitor) (s : State) (i : nat) :
  let info := GetQuickFrameInfo fr in
  let spill_count := POPCOUNT (CoreSpillMask info) in
  let k := count_bits (CoreSpillMask info) 0 i in
  fp_spills_in_bounds fr = true ->
  (i < kNumberOfCpuRegisters)%nat ->
  spilled (CoreSpillMask info) i = true ->
  exists s',
    FillCalleeSaves fr s = Ok tt s' /\
    gprs_ (ctx s') i =
      CalleeSaveAddress fr (spill_count - k - 2) (FrameSizeInBytes info) /\
    0 <= k < spill_count /\
    forall i', (i < i' < kNumberOfCpuRegisters)%nat ->
               spilled (CoreSpillMask info) i' = true ->
               exists p', gprs_ (ctx s') i' =
                            CalleeSaveAddress fr p' (FrameSizeInBytes info) /\
                          p' < spill_count - k - 2.
Proof.
  intros info spill_count k Hin Hi Hs.
  destruct (FillCalleeSaves_runs fr s Hin) as (s' & R & _).
  pose proof (FillCalleeSaves_outcome fr s) as (G & _). rewrite R in G. cbn [state_of] in G.
  exists s'. split; [exact R|].
  unfold kNumberOfCpuRegisters in *.
  split; [|split].
  - rewrite G. fold info. rewrite Hs.
    replace (i <? 8)%nat with true by (symmetry; apply Nat.ltb_lt; lia).
    reflexivity.
  - pose proof (count_bits_bounds (CoreSpillMask info) i 0).
    pose proof (count_below_POPCOUNT (CoreSpillMask info) i ltac:(lia) Hs).
    subst k spill_count. lia.
  - intros i' Hi' Hs'. eexists. split.
    + rewrite G. fold info. rewrite Hs'.
      replace (i' <? 8)%nat with true by (symmetry; apply Nat.ltb_lt; lia).
      reflexivity.
    + unfold core_spill_position. fold info.
      pose proof (count_bits_mono (CoreSpillMask info) i i' ltac:(lia) Hs).
      subst k spill_count. lia.
Qed.

(** C6. For a frame whose FP spill mask has the bit of XMM register [i]
    set, [FillCalleeSaves] binds the two adjacent slots [2i] and [2i+1],
    each to its own spill position, the second one position below the
    first.  The positions follow the rule of the core registers with two
    words per register -- the register carrying set bit number [k] of the FP
    mask starts [2k + 2] below [2 * fp_spill_count] -- shifted by
    [spill_count], the size of the core spill region. *)
Theorem FillCalleeSaves_binds_xmm_word_pairs (fr : StackVisitor) (s : State) (i : nat) :
  let info := GetQuickFrameInfo fr in
  let spill_count := POPCOUNT (CoreSpillMask info) in
  let fp_spill_count := POPCOUNT (FpSpillMask info) in
  let k := count_bits (FpSpillMask info) 0 i in
  fp_spills_in_bounds fr = true ->
  (i < kNumberOfFloatRegisters)%nat ->
  spilled (FpSpillMask info) i = true ->
  exists s',
    FillCalleeSaves fr s = Ok tt s' /\
    fprs_ (ctx s') (2 * i)%nat =
      CalleeSaveAddress fr (spill_count + (2 * fp_spill_count - 2 * k - 2))
                        (FrameSizeInBytes info) /\
    fprs_ (ctx s') (2 * i + 1)%nat =
      CalleeSaveAddress fr (spill_count + (2 * fp_spill_count - 2 * k - 2) - 1)
                        (FrameSizeInBytes info) /\
    0 <= k < fp_spill_count /\
    forall i', (i < i' < kNumberOfFloatRegisters)%nat ->
               spilled (FpSpillMask info) i' = true ->
               exists p', fprs_ (ctx s') (2 * i')%nat =
                            CalleeSaveAddress fr p' (FrameSizeInBytes info) /\
                          p' < spill_count + (2 * fp_spill_count - 2 * k - 2) - 1.
Proof.
  intros info spill_count fp_spill_count k Hin Hi Hs.
  destruct (FillCalleeSaves_runs fr s Hin) as (s' & R & F).
  pose proof (fp_spills_in_bounds_spec fr i Hin Hi Hs) as Hb.
  exists s'. split; [exact R|].
  unfold kNumberOfFloatRegisters in *.
  split; [|split; [|split]].
  - rewrite F. fold info.
    replace (2 * i / 2)%nat with i by lia. rewrite Hs.
    replace (2 * i <? 16)%nat with true by (symmetry; apply Nat.ltb_lt; lia).
    cbn [andb]. f_equal. unfold fp_spill_position. fold info.
    replace (2 * i mod 2)%nat with 0%nat by lia.
    subst k spill_count fp_spill_count. lia.
  - rewrite F. fold info.
    replace ((2 * i + 1) / 2)%nat with i by lia. rewrite Hs.
    replace (2 * i + 1 <? 16)%nat with true by (symmetry; apply Nat.ltb_lt; lia).
    cbn [andb]. f_equal. unfold fp_spill_position. fold info.
    replace ((2 * i + 1) mod 2)%nat with 1%nat by lia.
    subst k spill_count fp_spill_count. lia.
  - pose proof (count_bits_bounds (FpSpillMask info) i 0).
    pose proof (count_below_POPCOUNT (FpSpillMask info) i ltac:(lia) Hs).
    subst k fp_spill_count. lia.
  - intros i' Hi' Hs'.
    pose proof (fp_spills_in_bounds_spec fr i' Hin ltac:(unfold kNumberOfFloatRegisters; lia) Hs')
      as Hb'.
    unfold kNumberOfFloatRegisters in Hb'.
    eexists. split.
    + rewrite F. fold info.
      replace (2 * i' / 2)%nat with i' by lia. rewrite Hs'.
      replace (2 * i' <? 16)%nat with true by (symmetry; apply Nat.ltb_lt; lia).
      reflexivity.
    + unfold fp_spill_position. fold info.
      replace (2 * i' mod 2)%nat with 0%nat by lia.
      pose proof (count_bits_mono (FpSpillMask info) i i' ltac:(lia) Hs).
      subst k spill_count fp_spill_count. lia.
Qed.

(** C7. [FillCalleeSaves] leaves the binding of every register whose
    spill-mask bit is clear as it was, bound or unset; it writes neither the
    scalars nor any stack word; and the bindings it produces do not depend on
    the scalars or on the contents of the stack, which it therefore never
    reads. *)
Theorem FillCalleeSaves_touches_only_spilled_bindings (fr : StackVisitor) (s : State) :
  let info := GetQuickFrameInfo fr in
  fp_spills_in_bounds fr = true ->
  exists s',
    FillCalleeSaves fr s = Ok tt s' /\
    (forall i, (i < kNumberOfCpuRegisters)%nat ->
               spilled (CoreSpillMask info) i = false ->
               gprs_ (ctx s') i = gprs_ (ctx s) i) /\
    (forall i, spilled (FpSpillMask info) i = false ->
               fprs_ (ctx s') (2 * i)%nat = fprs_ (ctx s) (2 * i)%nat /\
               fprs_ (ctx s') (2 * i + 1)%nat = fprs_ (ctx s) (2 * i + 1)%nat) /\
    esp_ (ctx s') = esp_ (ctx s) /\
    eip_ (ctx s') = eip_ (ctx s) /\
    stack s' = stack s /\
    forall t,
      (forall k, gprs_ (ctx t) k = gprs_ (ctx s) k) ->
      (forall k, fprs_ (ctx t) k = fprs_ (ctx s) k) ->
      exists t',
        FillCalleeSaves fr t = Ok tt t' /\
        (forall k, gprs_ (ctx t') k = gprs_ (ctx s') k) /\
        (forall k, fprs_ (ctx t') k = fprs_ (ctx s') k).
Proof.
  intros info Hin.
  destruct (FillCalleeSaves_runs fr s Hin) as (s' & R & F).
  pose proof (FillCalleeSaves_outcome fr s) as (G & E & I & St & Fc).
  rewrite R in G, E, I, St, Fc. cbn [state_of] in G, E, I, St, Fc.
  exists s'. split; [exact R|].
  split; [|split; [|split; [|split; [|split]]]]; try assumption.
  - intros i Hi Hc. rewrite G. fold info. rewrite Hc. now rewrite andb_false_r.
  - intros i Hc. split; apply Fc; fold info.
    + replace (2 * i / 2)%nat with i by lia. exact Hc.
    + replace ((2 * i + 1) / 2)%nat with i by lia. exact Hc.
  - intros t Hg Hf.
    destruct (FillCalleeSaves_runs fr t Hin) as (t' & Rt & Ft).
    pose proof (FillCalleeSaves_outcome fr t) as (Gt & _).
    rewrite Rt in Gt. cbn [state_of] in Gt.
    exists t'. split; [exact Rt|]. split.
    + intros k. rewrite Gt, G, Hg. reflexivity.
    + intros k. rewrite Ft, F, Hf. reflexivity.
Qed.

(** ** Call sequences: which slots can be bound *)

Lemma run_bound_gpr (o : op) (s s' : State) (i : nat) :
  run o s = Ok tt s' ->
  gprs_ (ctx s') i <> nullptr ->
  gprs_ (ctx s) i <> nullptr \/ populates_gpr i o = true.
Proof.
  destruct o as [fr| |reg v|reg v]; cbn [run populates_gpr]; intros R Hb.
  - pose proof (FillCalleeSaves_outcome fr s) as (G & _).
    rewrite R in G. cbn [state_of] in G. rewrite G in Hb.
    destruct (spilled (CoreSpillMask (GetQuickFrameInfo fr)) i); [now right|].
    rewrite andb_false_r in Hb. now left.
  - destruct (SmashCallerSaves_runs s) as (s1 & R1 & G & _).
    rewrite R in R1. injection R1 as <-. rewrite G in Hb.
    destruct (Nat.eqb i EAX || Nat.eqb i EDX); [now right|].
    destruct (Nat.eqb i ECX || Nat.eqb i EBX); [contradiction|now left].
  - apply SetGPR_keeps_bindings in R as (G & _). rewrite G in Hb. now left.
  - apply SetFPR_keeps_bindings in R as (G & _). rewrite G in Hb. now left.
Qed.

Lemma run_bound_fpr (o : op) (s s' : State) (k : nat) :
  run o s = Ok tt s' ->
  fprs_ (ctx s') k <> nullptr ->
  fprs_ (ctx s) k <> nullptr \/ populates_fpr k o = true.
Proof.
  destruct o as [fr| |reg v|reg v]; cbn [run populates_fpr]; intros R Hb.
  - pose proof (FillCalleeSaves_outcome fr s) as (_ & _ & _ & _ & F).
    rewrite R in F. cbn [state_of] in F.
    destruct (spilled (FpSpillMask (GetQuickFrameInfo fr)) (k / 2)) eqn:Sk; [now right|].
    rewrite F in Hb by assumption. now left.
  - destruct (SmashCallerSaves_runs s) as (s1 & R1 & _ & F & _).
    rewrite R in R1. injection R1 as <-. rewrite F in Hb.
    destruct (k <? kNumberOfFloatRegisters)%nat; [contradiction|now left].
  - apply SetGPR_keeps_bindings in R as (_ & F). rewrite F in Hb. now left.
  - apply SetFPR_keeps_bindings in R as (_ & F). rewrite F in Hb. now left.
Qed.

Lemma run_keeps_ESP_bound (o : op) (s s' : State) :
  frame_addresses_nonnull o ->
  run o s = Ok tt s' ->
  gprs_ (ctx s) ESP <> nullptr ->
  gprs_ (ctx s') ESP <> nullptr.
Proof.
  destruct o as [fr| |reg v|reg v]; cbn [run frame_addresses_nonnull]; intros Hfr R Hb.
  - pose proof (FillCalleeSaves_outcome fr s) as (G & _).
    rewrite R in G. cbn [state_of] in G. rewrite G.
    destruct (_ && _); [apply Hfr|assumption].
  - destruct (SmashCallerSaves_runs s) as (s1 & R1 & G & _).
    rewrite R in R1. injection R1 as <-. rewrite G. exact Hb.
  - apply SetGPR_keeps_bindings in R as (G & _). now rewrite G.
  - apply SetFPR_keeps_bindings in R as (G & _). now rewrite G.
Qed.

Lemma run_ops_cons (o : op) (rest : list op) (s s' : State) :
  run_ops (o :: rest) s = Ok tt s' ->
  exists s1, run o s = Ok tt s1 /\ run_ops rest s1 = Ok tt s'.
Proof.
  cbn [run_ops]. unfold bind. destruct (run o s) as [[] s1|f s1]; [|discriminate].
  intros H. now exists s1.
Qed.

Lemma run_ops_bound_gpr (os : list op) (s s' : State) (i : nat) :
  run_ops os s = Ok tt s' ->
  gprs_ (ctx s') i <> nullptr ->
  gprs_ (ctx s) i <> nullptr \/ Exists (fun o => populates_gpr i o = true) os.
Proof.
  revert s. induction os as [|o rest IH]; intros s R Hb.
  - injection R as <-. now left.
  - apply run_ops_cons in R as (s1 & R1 & R2).
    destruct (IH s1 R2 Hb) as [H|H]; [|right; now apply Exists_cons_tl].
    destruct (run_bound_gpr o s s1 i R1 H) as [H'|H']; [now left|].
    right. now apply Exists_cons_hd.
Qed.

Lemma run_ops_bound_fpr (os : list op) (s s' : State) (k : nat) :
  run_ops os s = Ok tt s' ->
  fprs_ (ctx s') k <> nullptr ->
  fprs_ (ctx s) k <> nullptr \/ Exists (fun o => populates_fpr k o = true) os.
Proof.
  revert s. induction os as [|o rest IH]; intros s R Hb.
  - injection R as <-. now left.
  - apply run_ops_cons in R as (s1 & R1 & R2).
    destruct (IH s1 R2 Hb) as [H|H]; [|right; now apply Exists_cons_tl].
    destruct (run_bound_fpr o s s1 k R1 H) as [H'|H']; [now left|].
    right. now apply Exists_cons_hd.
Qed.

Lemma run_ops_keeps_ESP_bound (os : list op) (s s' : State) :
  Forall frame_addresses_nonnull os ->
  run_ops os s = Ok tt s' ->
  gprs_ (ctx s) ESP <> nullptr ->
  gprs_ (ctx s') ESP <> nullptr.
Proof.
  intros Hfr. revert s. induction Hfr as [|o rest Ho _ IH]; intros s R Hb.
  - injection R as <-. assumption.
  - apply run_ops_cons in R as (s1 & R1 & R2).
    apply (IH s1 R2). now apply (run_keeps_ESP_bound o s s1).
Qed.

(** C8. In every state reached from [Reset()] by a sequence of
    [FillCalleeSaves], [SmashCallerSaves], [SetGPR] and [SetFPR] calls that
    all returned -- the frame cursors handing out addresses of real stack
    words -- the ESP slot is bound.  Any other slot that is bound in such a
    state has been populated by one of the calls of the sequence: a
    [FillCalleeSaves] on a frame whose mask has the register's bit set, or,
    for EAX and EDX, a [SmashCallerSaves]; with no such call the slot is
    still unset, as [Reset] left it. *)
Theorem ESP_slot_bound_in_every_reachable_state
        (s0 : State) (os : list op) (s : State) :
  Forall frame_addresses_nonnull os ->
  (Reset ;; run_ops os) s0 = Ok tt s ->
  gprs_ (ctx s) ESP <> nullptr /\
  (forall i, (i < kNumberOfCpuRegisters)%nat -> i <> ESP ->
             gprs_ (ctx s) i <> nullptr ->
             Exists (fun o => populates_gpr i o = true) os) /\
  (forall k, (k < kNumberOfFloatRegisters)%nat ->
             fprs_ (ctx s) k <> nullptr ->
             Exists (fun o => populates_fpr k o = true) os).
Proof.
  intros Hfr R.
  destruct (Reset_runs s0) as (s1 & R1 & G1 & F1 & _).
  rewrite (bind_Ok _ _ _ _ _ R1) in R.
  split; [|split].
  - apply (run_ops_keeps_ESP_bound os s1 s Hfr R).
    rewrite G1. discriminate.
  - intros i Hi Hne Hb.
    destruct (run_ops_bound_gpr os s1 s i R Hb) as [H|H]; [|exact H].
    exfalso. apply H. rewrite G1.
    apply Nat.eqb_neq in Hne as ->. apply Nat.ltb_lt in Hi as ->. reflexivity.
  - intros k Hk Hb.
    destruct (run_ops_bound_fpr os s1 s k R Hb) as [H|H]; [|exact H].
    exfalso. apply H. rewrite F1. apply Nat.ltb_lt in Hk as ->. reflexivity.
Qed.

(** ** [DoLongJump] *)

(** A loop whose every iteration stores one value into a local buffer and
    leaves the state alone. *)
Lemma snapshot_loop (f : nat -> nat) (v : nat -> Z)
      (body : nat -> array Z -> M (array Z)) (s : State) (n a : nat) (buf : array Z) :
  (forall i b, (a <= i < a + n)%nat -> body i b s = Ok (upd b (f i) (v i)) s) ->
  exists buf',
    for_loop (seq a n) body buf s = Ok buf' s /\
    (forall i, (a <= i < a + n)%nat ->
               (forall i', (i < i' < a + n)%nat -> f i' <> f i) ->
               buf' (f i) = v i) /\
    (forall idx, (forall i, (a <= i < a + n)%nat -> f i <> idx) -> buf' idx = buf idx).
Proof.
  revert a buf. induction n as [|n IH]; intros a buf Hbody.
  - exists buf. split; [reflexivity|]. split; [intros i Hi; lia|reflexivity].
  - cbn [seq for_loop].
    rewrite (bind_Ok _ _ _ _ _ (Hbody a buf ltac:(lia))). cbv beta.
    destruct (IH (S a) (upd buf (f a) (v a))) as (buf' & R & Hin & Hout).
    { intros i b Hi. apply Hbody. lia. }
    exists buf'. split; [exact R|]. split.
    + intros i Hi Hinj. destruct (Nat.eq_dec i a) as [->|Hne].
      * rewrite Hout; [apply upd_eq|]. intros i' Hi'. apply Hinj. lia.
      * apply Hin; [lia|]. intros i' Hi'. apply Hinj. lia.
    + intros idx Hidx. rewrite Hout.
      * apply upd_neq. intros E. apply (Hidx a); [lia|congruence].
      * intros i Hi. apply Hidx. lia.
Qed.

Lemma load_slot_value (base : Z) (s : State) (p : ptr) (i : nat) :
  (if negb (ptr_eqb p nullptr) then load p
   else ret (to_uintptr (base + Z.of_nat i))) s
  = Ok (slot_value base s p i) s.
Proof. destruct p; reflexivity. Qed.

Lemma slot_value_unset (base : Z) (s : State) (i : nat) :
  slot_value base s nullptr i = to_uintptr (base + Z.of_nat i).
Proof. reflexivity. Qed.

Lemma slot_value_bound (base : Z) (s : State) (p : ptr) (i : nat) :
  p <> nullptr -> read_word s p = Some (slot_value base s p i).
Proof. destruct p; intros H; [contradiction|reflexivity..]. Qed.

(** C3. On i386 [DoLongJump] always gets as far as the jump.  Its scratch
    buffer has one word per general-purpose register plus one: entry
    [kNumberOfCpuRegisters - 1 - i] holds the word slot [i] points to, or the
    debug value [kBadGprBase + i] when the slot is unset; this is the order
    [popal] expects, every register but ESP receiving its own value.  The
    extra entry holds the reconstructed stack pointer less one machine word;
    the return address [eip_] is stored at that address, where [ret] finds
    it.  No entry past these nine is written. *)
Theorem DoLongJump_fills_buffer_in_pop_order
        (gprs0 fprs0 : array Z) (cpu : Cpu) (s : State) :
  defined__i386__ = true ->
  exists lj s',
    DoLongJump gprs0 fprs0 cpu s = Ok lj s' /\
    (forall i, (i < kNumberOfCpuRegisters)%nat -> gprs_ (ctx s) i <> nullptr ->
       read_word s (gprs_ (ctx s) i)
       = Some (jump_gprs lj (kNumberOfCpuRegisters - 1 - i)%nat)) /\
    (forall i, (i < kNumberOfCpuRegisters)%nat -> gprs_ (ctx s) i = nullptr ->
       jump_gprs lj (kNumberOfCpuRegisters - 1 - i)%nat
       = to_uintptr (kBadGprBase + Z.of_nat i)) /\
    jump_gprs lj kNumberOfCpuRegisters
    = to_uintptr (jump_gprs lj (kNumberOfCpuRegisters - 1 - ESP)%nat - sizeof_intptr_t) /\
    stack s' (jump_gprs lj kNumberOfCpuRegisters) = eip_ (ctx s) /\
    (forall a, a <> jump_gprs lj kNumberOfCpuRegisters -> stack s' a = stack s a) /\
    ctx s' = ctx s /\
    (forall idx, (kNumberOfCpuRegisters < idx)%nat -> jump_gprs lj idx = gprs0 idx) /\
    (forall i, (i < kNumberOfCpuRegisters)%nat -> i <> ESP ->
       cpu_reg (jump_cpu lj) i = jump_gprs lj (kNumberOfCpuRegisters - 1 - i)%nat) /\
    cpu_reg (jump_cpu lj) ESP
    = to_uintptr (jump_gprs lj kNumberOfCpuRegisters + sizeof_intptr_t) /\
    cpu_eip (jump_cpu lj) = eip_ (ctx s).
Proof.
  intros Hi386. unfold DoLongJump. rewrite Hi386.
  (* the general-purpose buffer *)
  destruct (snapshot_loop (fun i => (kNumberOfCpuRegisters - i - 1)%nat)
              (fun i => slot_value kBadGprBase s (gprs_ (ctx s) i) i)
              (fun i gprs =>
                 p <- get_gpr i ;;
                 v <- (if negb (ptr_eqb p nullptr) then load p
                       else ret (to_uintptr (kBadGprBase + Z.of_nat i))) ;;
                 local_set (kNumberOfCpuRegisters + 1) gprs
                           (kNumberOfCpuRegisters - i - 1) v)
              s kNumberOfCpuRegisters 0 gprs0) as (gprs & Rg & Gin & Gout).
  { intros i b Hi. unfold bind, get_gpr.
    replace (i <? kNumberOfCpuRegisters)%nat with true by (symmetry; apply Nat.ltb_lt; lia).
    rewrite load_slot_value. unfold local_set.
    replace (kNumberOfCpuRegisters - i - 1 <? kNumberOfCpuRegisters + 1)%nat with true
      by (symmetry; apply Nat.ltb_lt; unfold kNumberOfCpuRegisters; lia).
    reflexivity. }
  rewrite (bind_Ok _ _ _ _ _ Rg). cbv beta.
  (* the floating-point buffer *)
  destruct (snapshot_loop (fun i => i)
              (fun i => slot_value kBadFprBase s (fprs_ (ctx s) i) i)
              (fun i fprs =>
                 p <- get_fpr i ;;
                 v <- (if negb (ptr_eqb p nullptr) then load p
                       else ret (to_uintptr (kBadFprBase + Z.of_nat i))) ;;
                 local_set kNumberOfFloatRegisters fprs i v)
              s kNumberOfFloatRegisters 0 fprs0) as (fprs & Rf & _).
  { intros i b Hi. unfold bind, get_fpr.
    replace (i <? kNumberOfFloatRegisters)%nat with true by (symmetry; apply Nat.ltb_lt; lia).
    rewrite load_slot_value. unfold local_set.
    replace (i <? kNumberOfFloatRegisters)%nat with true by (symmetry; apply Nat.ltb_lt; lia).
    reflexivity. }
  rewrite (bind_Ok _ _ _ _ _ Rf). cbv beta.
  assert (Gval : forall i, (i < kNumberOfCpuRegisters)%nat ->
            gprs (kNumberOfCpuRegisters - 1 - i)%nat
            = slot_value kBadGprBase s (gprs_ (ctx s) i) i).
  { intros i Hi. replace (kNumberOfCpuRegisters - 1 - i)%nat
      with (kNumberOfCpuRegisters - i - 1)%nat by lia.
    apply (Gin i); [lia|]. intros i' Hi'. unfold kNumberOfCpuRegisters in *. lia. }
  set (sp := to_uintptr (gprs (kNumberOfCpuRegisters - ESP - 1)%nat - sizeof_intptr_t)).
  eexists. eexists. split.
  - unfold bind, local_get, local_set, get_eip_, store, asm_long_jump, load, ret.
    cbn [Nat.ltb Nat.leb kNumberOfCpuRegisters ESP Nat.add Nat.sub].
    reflexivity.
  - cbn [jump_gprs jump_cpu cpu_reg cpu_eip ctx stack].
    change (to_uintptr (gprs 3%nat - sizeof_intptr_t)) with sp.
    assert (E8 : upd gprs kNumberOfCpuRegisters sp kNumberOfCpuRegisters = sp)
      by apply upd_eq.
    assert (Elow : forall i, (i < kNumberOfCpuRegisters)%nat ->
              upd gprs kNumberOfCpuRegisters sp (kNumberOfCpuRegisters - 1 - i)%nat
              = gprs (kNumberOfCpuRegisters - 1 - i)%nat).
    { intros i Hi. apply upd_neq. unfold kNumberOfCpuRegisters in *. lia. }
    split; [|split; [|split; [|split; [|split; [|split; [|split; [|split; [|split]]]]]]]].
    + intros i Hi Hb. rewrite Elow, Gval by assumption. now apply slot_value_bound.
    + intros i Hi Hn. rewrite Elow, Gval by assumption. rewrite Hn. reflexivity.
    + rewrite E8, (Elow ESP) by (unfold kNumberOfCpuRegisters, ESP; lia). reflexivity.
    + rewrite E8. apply updZ_eq.
    + rewrite E8. intros a Ha. unfold updZ.
      now apply Z.eqb_neq in Ha as ->.
    + reflexivity.
    + intros idx Hidx. rewrite upd_neq by lia. apply Gout.
      intros i Hi. unfold kNumberOfCpuRegisters in *. lia.
    + intros i Hi Hne. unfold kNumberOfCpuRegisters, ESP in *.
      destruct i as [|[|[|[|[|[|[|[|i]]]]]]]]; try lia; reflexivity.
    + unfold sizeof_intptr_t. reflexivity.
    + rewrite upd_eq. unfold kNumberOfCpuRegisters. rewrite upd_eq. apply updZ_eq.
Qed.

(** * Further properties *)

(** ** What a long jump loads *)

(** Stepping one word down and back up is the identity on [uintptr_t]. *)
Lemma to_uintptr_down_up (v : Z) :
  to_uintptr (to_uintptr (v - sizeof_intptr_t) + sizeof_intptr_t) = to_uintptr v.
Proof.
  unfold to_uintptr, sizeof_intptr_t.
  rewrite Z.add_mod_idemp_l by discriminate. f_equal. lia.
Qed.

(** The complete effect of [DoLongJump] on i386, in terms of the value each
    slot stands for. *)
Lemma DoLongJump_runs (gprs0 fprs0 : array Z) (cpu : Cpu) (s : State) :
  defined__i386__ = true ->
  exists lj s',
    DoLongJump gprs0 fprs0 cpu s = Ok lj s' /\
    (forall i, (i < kNumberOfCpuRegisters)%nat ->
       jump_gprs lj (kNumberOfCpuRegisters - 1 - i)%nat
       = slot_value kBadGprBase s (gprs_ (ctx s) i) i) /\
    jump_gprs lj kNumberOfCpuRegisters
    = to_uintptr (slot_value kBadGprBase s (gprs_ (ctx s) ESP) ESP - sizeof_intptr_t) /\
    (forall k, (k < kNumberOfFloatRegisters)%nat ->
       jump_fprs lj k = slot_value kBadFprBase s (fprs_ (ctx s) k) k) /\
    (forall i, (i < kNumberOfCpuRegisters)%nat -> i <> ESP ->
       cpu_reg (jump_cpu lj) i = slot_value kBadGprBase s (gprs_ (ctx s) i) i) /\
    cpu_reg (jump_cpu lj) ESP
    = to_uintptr (slot_value kBadGprBase s (gprs_ (ctx s) ESP) ESP) /\
    cpu_eip (jump_cpu lj) = eip_ (ctx s) /\
    (forall j, (j < 8)%nat ->
       cpu_xmm (jump_cpu lj) j = (jump_fprs lj (2 * j)%nat, jump_fprs lj (2 * j + 1)%nat)) /\
    ctx s' = ctx s /\
    (forall a, stack s' a
               = if a =? jump_gprs lj kNumberOfCpuRegisters then eip_ (ctx s)
                 else stack s a).
Proof.
  intros Hi386. unfold DoLongJump. rewrite Hi386.
  destruct (snapshot_loop (fun i => (kNumberOfCpuRegisters - i - 1)%nat)
              (fun i => slot_value kBadGprBase s (gprs_ (ctx s) i) i)
              (fun i gprs =>
                 p <- get_gpr i ;;
                 v <- (if negb (ptr_eqb p nullptr) then load p
                       else ret (to_uintptr (kBadGprBase + Z.of_nat i))) ;;
                 local_set (kNumberOfCpuRegisters + 1) gprs
                           (kNumberOfCpuRegisters - i - 1) v)
              s kNumberOfCpuRegisters 0 gprs0) as (gprs & Rg & Gin & _).
  { intros i b Hi. unfold bind, get_gpr.
    replace (i <? kNumberOfCpuRegisters)%nat with true by (symmetry; apply Nat.ltb_lt; lia).
    rewrite load_slot_value. unfold local_set.
    replace (kNumberOfCpuRegisters - i - 1 <? kNumberOfCpuRegisters + 1)%nat with true
      by (symmetry; apply Nat.ltb_lt; unfold kNumberOfCpuRegisters; lia).
    reflexivity. }
  rewrite (bind_Ok _ _ _ _ _ Rg). cbv beta.
  destruct (snapshot_loop (fun i => i)
              (fun i => slot_value kBadFprBase s (fprs_ (ctx s) i) i)
              (fun i fprs =>
                 p <- get_fpr i ;;
                 v <- (if negb (ptr_eqb p nullptr) then load p
                       else ret (to_uintptr (kBadFprBase + Z.of_nat i))) ;;
                 local_set kNumberOfFloatRegisters fprs i v)
              s kNumberOfFloatRegisters 0 fprs0) as (fprs & Rf & Fin & _).
  { intros i b Hi. unfold bind, get_fpr.
    replace (i <? kNumberOfFloatRegisters)%nat with true by (symmetry; apply Nat.ltb_lt; lia).
    rewrite load_slot_value. unfold local_set.
    replace (i <? kNumberOfFloatRegisters)%nat with true by (symmetry; apply Nat.ltb_lt; lia).
    reflexivity. }
  rewrite (bind_Ok _ _ _ _ _ Rf). cbv beta.
  assert (Gval : forall i, (i < kNumberOfCpuRegisters)%nat ->
            gprs (kNumberOfCpuRegisters - 1 - i)%nat
            = slot_value kBadGprBase s (gprs_ (ctx s) i) i).
  { intros i Hi. replace (kNumberOfCpuRegisters - 1 - i)%nat
      with (kNumberOfCpuRegisters - i - 1)%nat by lia.
    apply (Gin i); [lia|]. intros i' Hi'. unfold kNumberOfCpuRegisters in *. lia. }
  assert (G3 : gprs 3%nat = slot_value kBadGprBase s (gprs_ (ctx s) ESP) ESP).
  { apply (Gval ESP). unfold ESP, kNumberOfCpuRegisters. lia. }
  set (sp := to_uintptr (gprs 3%nat - sizeof_intptr_t)).
  eexists. eexists. split.
  - unfold bind, local_get, local_set, get_eip_, store, asm_long_jump, load, ret.
    cbn [Nat.ltb Nat.leb kNumberOfCpuRegisters ESP Nat.add Nat.sub].
    reflexivity.
  - cbn [jump_gprs jump_fprs jump_cpu cpu_reg cpu_xmm cpu_eip ctx stack].
    change (to_uintptr (gprs 3%nat - sizeof_intptr_t)) with sp.
    assert (E8 : upd gprs kNumberOfCpuRegisters sp kNumberOfCpuRegisters = sp)
      by apply upd_eq.
    assert (Elow : forall i, (i < kNumberOfCpuRegisters)%nat ->
              upd gprs kNumberOfCpuRegisters sp (kNumberOfCpuRegisters - 1 - i)%nat
              = gprs (kNumberOfCpuRegisters - 1 - i)%nat).
    { intros i Hi. apply upd_neq. unfold kNumberOfCpuRegisters in *. lia. }
    split; [|split; [|split; [|split; [|split; [|split; [|split; [|split]]]]]]].
    + intros i Hi. rewrite Elow by assumption. now apply Gval.
    + rewrite E8. unfold sp. now rewrite G3.
    + intros k Hk. apply (Fin k); [lia|]. intros k' Hk'. lia.
    + intros i Hi Hne. rewrite <- Gval, <- Elow by assumption.
      unfold kNumberOfCpuRegisters, ESP in *.
      destruct i as [|[|[|[|[|[|[|[|i]]]]]]]]; try lia; reflexivity.
    + rewrite !upd_eq. rewrite <- G3. unfold sp. apply to_uintptr_down_up.
    + rewrite upd_eq. unfold kNumberOfCpuRegisters. rewrite upd_eq. apply updZ_eq.
    + intros j Hj. destruct j as [|[|[|[|[|[|[|[|j]]]]]]]]; try lia; reflexivity.
    + reflexivity.
    + intros a. rewrite E8. reflexivity.
Qed.

(** X5. On i386 the floating-point scratch buffer of [DoLongJump] holds,
    for each of the sixteen slots, the word the slot points to, or the debug
    value [kBadFprBase + k] when the slot is unset; the eight [movsd] loads
    give XMM register [j] the words [2j] (low) and [2j + 1] (high). *)
Theorem DoLongJump_loads_xmm_from_fpr_buffer
        (gprs0 fprs0 : array Z) (cpu : Cpu) (s : State) :
  defined__i386__ = true ->
  exists lj s',
    DoLongJump gprs0 fprs0 cpu s = Ok lj s' /\
    (forall k, (k < kNumberOfFloatRegisters)%nat -> fprs_ (ctx s) k <> nullptr ->
       read_word s (fprs_ (ctx s) k) = Some (jump_fprs lj k)) /\
    (forall k, (k < kNumberOfFloatRegisters)%nat -> fprs_ (ctx s) k = nullptr ->
       jump_fprs lj k = to_uintptr (kBadFprBase + Z.of_nat k)) /\
    (forall j, (j < 8)%nat ->
       cpu_xmm (jump_cpu lj) j = (jump_fprs lj (2 * j)%nat, jump_fprs lj (2 * j + 1)%nat)).
Proof.
  intros Hi386.
  destruct (DoLongJump_runs gprs0 fprs0 cpu s Hi386)
    as (lj & s' & R & _ & _ & F & _ & _ & _ & X & _).
  exists lj, s'. split; [exact R|]. split; [|split].
  - intros k Hk Hb. rewrite F by assumption. now apply slot_value_bound.
  - intros k Hk Hn. rewrite F by assumption. rewrite Hn. reflexivity.
  - exact X.
Qed.

(** ** Setting a register, then jumping *)

Lemma store_Ok_inv (p : ptr) (v : Z) (s s1 : State) :
  store p v s = Ok tt s1 ->
  gprs_ (ctx s1) = gprs_ (ctx s) /\ fprs_ (ctx s1) = fprs_ (ctx s) /\
  eip_ (ctx s1) = eip_ (ctx s) /\
  read_word s1 p = Some v /\ p <> nullptr /\
  ((p = addr_esp_ /\ esp_ (ctx s1) = v /\ stack s1 = stack s) \/
   (exists a, p = addr_stack a /\ esp_ (ctx s1) = esp_ (ctx s) /\
              stack s1 = updZ (stack s) a v)).
Proof.
  destruct p as [| | |a]; cbn [store]; unfold abort, set_esp_; intros H;
    try discriminate; injection H as <-; cbn [ctx gprs_ fprs_ esp_ eip_ stack].
  - repeat split; try discriminate. left. repeat split.
  - repeat split; try discriminate.
    + unfold read_word, load. cbn [stack]. now rewrite updZ_eq.
    + right. exists a. repeat split.
Qed.

Lemma SetGPR_Ok_inv (reg : nat) (v : Z) (s s1 : State) :
  SetGPR reg v s = Ok tt s1 ->
  (reg < kNumberOfCpuRegisters)%nat /\ store (gprs_ (ctx s) reg) v s = Ok tt s1.
Proof.
  rewrite SetGPR_unfold.
  destruct (reg <? kNumberOfCpuRegisters)%nat eqn:E; cbn [negb]; [|discriminate].
  destruct (_ && _); [discriminate|].
  destruct (ptr_eqb _ _); [discriminate|].
  intros H. split; [now apply Nat.ltb_lt|exact H].
Qed.

Lemma SetFPR_Ok_inv (reg : nat) (v : Z) (s s1 : State) :
  SetFPR reg v s = Ok tt s1 ->
  (reg < kNumberOfFloatRegisters)%nat /\ store (fprs_ (ctx s) reg) v s = Ok tt s1.
Proof.
  rewrite SetFPR_unfold.
  destruct (reg <? kNumberOfFloatRegisters)%nat eqn:E; cbn [negb]; [|discriminate].
  destruct (_ && _); [discriminate|].
  destruct (ptr_eqb _ _); [discriminate|].
  intros H. split; [now apply Nat.ltb_lt|exact H].
Qed.

Lemma slot_value_read (base : Z) (s : State) (p : ptr) (i : nat) (v : Z) :
  p <> nullptr -> read_word s p = Some v -> slot_value base s p i = v.
Proof.
  intros Hp Hr. rewrite (slot_value_bound base s p i Hp) in Hr. now injection Hr.
Qed.

(** X4. A value set with [SetGPR] is the value the long jump resumes with:
    when [SetGPR(reg, v)] has returned, [DoLongJump] puts [v] into the
    buffer entry of [reg] and [popal] loads it into register [reg]; for
    [reg = ESP] the extra entry is [v] less one word and after [ret] the
    stack pointer is [v] again.  The return address is the [eip_] the
    context held. *)
Theorem SetGPR_value_is_what_DoLongJump_loads
        (reg : nat) (v : Z) (gprs0 fprs0 : array Z) (cpu : Cpu) (s s1 : State) :
  defined__i386__ = true ->
  SetGPR reg v s = Ok tt s1 ->
  exists lj s2,
    DoLongJump gprs0 fprs0 cpu s1 = Ok lj s2 /\
    jump_gprs lj (kNumberOfCpuRegisters - 1 - reg)%nat = v /\
    (reg <> ESP -> cpu_reg (jump_cpu lj) reg = v) /\
    (reg = ESP ->
       jump_gprs lj kNumberOfCpuRegisters = to_uintptr (v - sizeof_intptr_t) /\
       cpu_reg (jump_cpu lj) ESP = to_uintptr v) /\
    cpu_eip (jump_cpu lj) = eip_ (ctx s).
Proof.
  intros Hi386 Hset.
  apply SetGPR_Ok_inv in Hset as (Hreg & Hst).
  apply store_Ok_inv in Hst as (G & _ & I & Hr & Hp & _).
  destruct (DoLongJump_runs gprs0 fprs0 cpu s1 Hi386)
    as (lj & s2 & R & B & B8 & _ & C & CE & CI & _).
  assert (V : slot_value kBadGprBase s1 (gprs_ (ctx s1) reg) reg = v).
  { rewrite G. now apply slot_value_read. }
  exists lj, s2. split; [exact R|].
  split; [|split; [|split]].
  - rewrite B by assumption. exact V.
  - intros Hne. rewrite C by assumption. exact V.
  - intros ->. rewrite B8, CE, V. now split.
  - now rewrite CI.
Qed.

(** X6. Likewise for [SetFPR]: once [SetFPR(reg, v)] has returned, the
    floating-point buffer entry [reg] is [v], and it is the low or high word
    [movsd] loads into XMM register [reg / 2]. *)
Theorem SetFPR_value_is_what_DoLongJump_loads
        (reg : nat) (v : Z) (gprs0 fprs0 : array Z) (cpu : Cpu) (s s1 : State) :
  defined__i386__ = true ->
  SetFPR reg v s = Ok tt s1 ->
  exists lj s2,
    DoLongJump gprs0 fprs0 cpu s1 = Ok lj s2 /\
    jump_fprs lj reg = v /\
    (if Nat.even reg then fst (cpu_xmm (jump_cpu lj) (reg / 2)%nat)
     else snd (cpu_xmm (jump_cpu lj) (reg / 2)%nat)) = v.
Proof.
  intros Hi386 Hset.
  apply SetFPR_Ok_inv in Hset as (Hreg & Hst).
  apply store_Ok_inv in Hst as (_ & F & _ & Hr & Hp & _).
  destruct (DoLongJump_runs gprs0 fprs0 cpu s1 Hi386)
    as (lj & s2 & R & _ & _ & B & _ & _ & _ & X & _).
  assert (V : jump_fprs lj reg = v).
  { rewrite B by assumption. rewrite F. now apply slot_value_read. }
  exists lj, s2. split; [exact R|]. split; [exact V|].
  unfold kNumberOfFloatRegisters in Hreg.
  rewrite X by lia.
  destruct (Nat.even reg) eqn:E; cbn [fst snd].
  - apply Nat.even_spec in E as [m ->].
    replace (2 * (2 * m / 2))%nat with (2 * m)%nat by lia. exact V.
  - assert (O : Nat.odd reg = true) by (unfold Nat.odd; now rewrite E).
    apply Nat.odd_spec in O as [m ->].
    replace (2 * ((2 * m + 1) / 2) + 1)%nat with (2 * m + 1)%nat by lia. exact V.
Qed.

(** ** Jumping from a smashed context *)

(** X7. A long jump taken right after [SmashCallerSaves] resumes with EAX
    and EDX equal to 0 -- the null return value -- with ECX and EBX holding
    their debug values, and with every XMM word holding its debug value. *)
Theorem SmashCallerSaves_then_DoLongJump_returns_zero
        (gprs0 fprs0 : array Z) (cpu : Cpu) (s : State) :
  defined__i386__ = true ->
  exists lj s',
    (SmashCallerSaves ;; DoLongJump gprs0 fprs0 cpu) s = Ok lj s' /\
    cpu_reg (jump_cpu lj) EAX = 0 /\
    cpu_reg (jump_cpu lj) EDX = 0 /\
    cpu_reg (jump_cpu lj) ECX = to_uintptr (kBadGprBase + Z.of_nat ECX) /\
    cpu_reg (jump_cpu lj) EBX = to_uintptr (kBadGprBase + Z.of_nat EBX) /\
    (forall j, (j < 8)%nat ->
       cpu_xmm (jump_cpu lj) j
       = (to_uintptr (kBadFprBase + Z.of_nat (2 * j)),
          to_uintptr (kBadFprBase + Z.of_nat (2 * j + 1)))) /\
    cpu_eip (jump_cpu lj) = eip_ (ctx s).
Proof.
  intros Hi386.
  destruct (SmashCallerSaves_runs s) as (s1 & R1 & G & F & _ & I & _).
  destruct (DoLongJump_runs gprs0 fprs0 cpu s1 Hi386)
    as (lj & s' & R & _ & _ & B & C & _ & CI & X & _).
  exists lj, s'. split; [rewrite (bind_Ok _ _ _ _ _ R1); exact R|].
  assert (L : forall i, (i < 8)%nat -> (i < kNumberOfCpuRegisters)%nat)
    by (intros i Hi; exact Hi).
  split; [|split; [|split; [|split; [|split]]]].
  - rewrite C, G by (try apply L; unfold EAX, ESP; lia). reflexivity.
  - rewrite C, G by (try apply L; unfold EDX, ESP; lia). reflexivity.
  - rewrite C, G by (try apply L; unfold ECX, ESP; lia). reflexivity.
  - rewrite C, G by (try apply L; unfold EBX, ESP; lia). reflexivity.
  - intros j Hj. rewrite X by assumption.
    rewrite !B by (unfold kNumberOfFloatRegisters; lia).
    rewrite !F.
    replace (2 * j <? kNumberOfFloatRegisters)%nat with true
      by (symmetry; apply Nat.ltb_lt; unfold kNumberOfFloatRegisters; lia).
    replace (2 * j + 1 <? kNumberOfFloatRegisters)%nat with true
      by (symmetry; apply Nat.ltb_lt; unfold kNumberOfFloatRegisters; lia).
    reflexivity.
  - now rewrite CI.
Qed.

(** ** [Reset] starts over *)

(** X1. [Reset] discards whatever the context held: from any two states the
    slots and scalars it leaves are the same, so resetting twice is the same
    as resetting once; the stack is not touched. *)
Theorem Reset_forgets_the_previous_context (s t : State) :
  exists s' t' s'',
    Reset s = Ok tt s' /\ Reset t = Ok tt t' /\ (Reset ;; Reset) s = Ok tt s'' /\
    (forall i, (i < kNumberOfCpuRegisters)%nat ->
               gprs_ (ctx s') i = gprs_ (ctx t') i) /\
    (forall k, (k < kNumberOfFloatRegisters)%nat ->
               fprs_ (ctx s') k = fprs_ (ctx t') k) /\
    esp_ (ctx s') = esp_ (ctx t') /\ eip_ (ctx s') = eip_ (ctx t') /\
    (forall i, gprs_ (ctx s'') i = gprs_ (ctx s') i) /\
    (forall k, fprs_ (ctx s'') k = fprs_ (ctx s') k) /\
    esp_ (ctx s'') = esp_ (ctx s') /\ eip_ (ctx s'') = eip_ (ctx s') /\
    stack s'' = stack s /\ stack s' = stack s.
Proof.
  destruct (Reset_runs s) as (s' & Rs & Gs & Fs & Es & Is & Ss).
  destruct (Reset_runs t) as (t' & Rt & Gt & Ft & Et & It & _).
  destruct (Reset_runs s') as (s'' & Rss & Gss & Fss & Ess & Iss & Sss).
  exists s', t', s''.
  split; [exact Rs|]. split; [exact Rt|].
  split; [rewrite (bind_Ok _ _ _ _ _ Rs); exact Rss|].
  split; [|split; [|split; [|split; [|split; [|split; [|split; [|split; [|split]]]]]]]];
    try congruence.
  - intros i Hi. rewrite Gs, Gt. apply Nat.ltb_lt in Hi as ->. reflexivity.
  - intros k Hk. rewrite Fs, Ft. apply Nat.ltb_lt in Hk as ->. reflexivity.
  - intros i. rewrite Gss, Gs.
    destruct (Nat.eqb i ESP); [reflexivity|].
    destruct (i <? kNumberOfCpuRegisters)%nat; reflexivity.
  - intros k. rewrite Fss, Fs.
    destruct (k <? kNumberOfFloatRegisters)%nat; reflexivity.
Qed.

(** ** Setting registers after [SmashCallerSaves] or [FillCalleeSaves] *)

(** X2. After [SmashCallerSaves] no caller-saved register can be set:
    [SetGPR] on EAX or EDX is stopped by a check (the slots point at the
    protected constant), [SetGPR] on ECX or EBX and [SetFPR] on any register
    do not return either, and none of them writes anything -- the run stops in
    the state [SmashCallerSaves] left. *)
Theorem SmashCallerSaves_then_set_is_refused (s : State) (reg : nat) (v : Z) :
  exists s1,
    SmashCallerSaves s = Ok tt s1 /\
    (reg = EAX \/ reg = EDX ->
       exists c, (SmashCallerSaves ;; SetGPR reg v) s = Abort (Fatal c) s1) /\
    (reg = ECX \/ reg = EBX ->
       (SmashCallerSaves ;; SetGPR reg v) s = Abort (Fatal DCHECK_failed) s1 \/
       (SmashCallerSaves ;; SetGPR reg v) s = Abort NullDereference s1) /\
    ((SmashCallerSaves ;; SetFPR reg v) s = Abort (Fatal CHECK_LT_failed) s1 \/
     (SmashCallerSaves ;; SetFPR reg v) s = Abort (Fatal DCHECK_failed) s1 \/
     (SmashCallerSaves ;; SetFPR reg v) s = Abort NullDereference s1) /\
    stack s1 = stack s /\ esp_ (ctx s1) = esp_ (ctx s) /\ eip_ (ctx s1) = eip_ (ctx s).
Proof.
  destruct (SmashCallerSaves_runs s) as (s1 & R1 & G & F & E & I & St).
  exists s1. split; [exact R1|].
  rewrite !(bind_Ok _ _ _ _ _ R1). rewrite SetGPR_unfold, SetFPR_unfold.
  split; [|split; [|split; [|repeat split; assumption]]].
  - intros Hreg.
    assert (Hg : gprs_ (ctx s1) reg = addr_gZero)
      by (rewrite G; destruct Hreg as [-> | ->]; reflexivity).
    replace (reg <? kNumberOfCpuRegisters)%nat with true
      by (destruct Hreg as [-> | ->]; reflexivity).
    cbn [negb]. destruct (_ && _); [eauto|]. rewrite Hg. cbn [ptr_eqb]. eauto.
  - intros Hreg.
    assert (Hg : gprs_ (ctx s1) reg = nullptr)
      by (rewrite G; destruct Hreg as [-> | ->]; reflexivity).
    replace (reg <? kNumberOfCpuRegisters)%nat with true
      by (destruct Hreg as [-> | ->]; reflexivity).
    cbn [negb]. destruct (_ && _); [now left|]. rewrite Hg. cbn [ptr_eqb store abort].
    now right.
  - destruct (reg <? kNumberOfFloatRegisters)%nat eqn:Hreg; cbn [negb]; [|now left].
    right. destruct (_ && _); [now left|].
    rewrite F, Hreg. cbn [ptr_eqb store abort]. now right.
Qed.

(** X3. A register bound by [FillCalleeSaves] is set in place: when the
    frame reports a stack word at address [a] for the position of spilled
    register [i], [FillCalleeSaves] followed by [SetGPR(i, v)] returns with
    [v] in that very word of the frame, every other stack word and both
    scalars being what they were. *)
Theorem FillCalleeSaves_then_SetGPR_writes_the_frame_word
        (fr : StackVisitor) (s : State) (i : nat) (v a : Z) :
  let info := GetQuickFrameInfo fr in
  fp_spills_in_bounds fr = true ->
  (i < kNumberOfCpuRegisters)%nat ->
  spilled (CoreSpillMask info) i = true ->
  CalleeSaveAddress fr
    (POPCOUNT (CoreSpillMask info) - count_bits (CoreSpillMask info) 0 i - 2)
    (FrameSizeInBytes info) = addr_stack a ->
  kEnableDChecks && negb (IsAccessibleGPR i (state_of (FillCalleeSaves fr s))) = false ->
  exists s',
    (FillCalleeSaves fr ;; SetGPR i v) s = Ok tt s' /\
    stack s' a = v /\
    (forall b, b <> a -> stack s' b = stack s b) /\
    esp_ (ctx s') = esp_ (ctx s) /\ eip_ (ctx s') = eip_ (ctx s).
Proof.
  intros info Hin Hi Hs Ha Hd.
  destruct (FillCalleeSaves_runs fr s Hin) as (s1 & R1 & _).
  pose proof (FillCalleeSaves_outcome fr s) as (G & E & I & St & _).
  rewrite R1 in G, E, I, St, Hd. cbn [state_of] in G, E, I, St, Hd.
  assert (Hg : gprs_ (ctx s1) i = addr_stack a).
  { rewrite G. fold info. rewrite Hs. apply Nat.ltb_lt in Hi as ->. exact Ha. }
  eexists. split.
  - rewrite (bind_Ok _ _ _ _ _ R1). rewrite SetGPR_unfold.
    apply Nat.ltb_lt in Hi as ->. cbn [negb]. rewrite Hd, Hg. reflexivity.
  - cbn [stack ctx]. split; [apply updZ_eq|]. split; [|split; assumption].
    intros b Hb. unfold updZ. apply Z.eqb_neq in Hb as ->. now rewrite St.
Qed.

(** X11. A [SetGPR] or [SetFPR] that returns has written exactly one
    location: the [esp_] scalar when the slot points at it, otherwise the
    one stack word the slot points at.  Every other stack word, the other
    scalar(s) and all bindings are unchanged. *)
Theorem SetGPR_SetFPR_write_exactly_one_word (reg : nat) (v : Z) (s s' : State) :
  (SetGPR reg v s = Ok tt s' ->
     gprs_ (ctx s') = gprs_ (ctx s) /\ fprs_ (ctx s') = fprs_ (ctx s) /\
     eip_ (ctx s') = eip_ (ctx s) /\
     ((gprs_ (ctx s) reg = addr_esp_ /\ esp_ (ctx s') = v /\ stack s' = stack s) \/
      (exists a, gprs_ (ctx s) reg = addr_stack a /\ esp_ (ctx s') = esp_ (ctx s) /\
                 stack s' a = v /\ forall b, b <> a -> stack s' b = stack s b))) /\
  (SetFPR reg v s = Ok tt s' ->
     gprs_ (ctx s') = gprs_ (ctx s) /\ fprs_ (ctx s') = fprs_ (ctx s) /\
     eip_ (ctx s') = eip_ (ctx s) /\
     ((fprs_ (ctx s) reg = addr_esp_ /\ esp_ (ctx s') = v /\ stack s' = stack s) \/
      (exists a, fprs_ (ctx s) reg = addr_stack a /\ esp_ (ctx s') = esp_ (ctx s) /\
                 stack s' a = v /\ forall b, b <> a -> stack s' b = stack s b))).
Proof.
  split; intros H.
  - apply SetGPR_Ok_inv in H as (_ & H).
    apply store_Ok_inv in H as (G & F & I & _ & _ & [(P & E & St)|(a & P & E & St)]).
    + repeat split; try assumption. now left.
    + repeat split; try assumption. right. exists a. rewrite St.
      repeat split; try assumption; [apply updZ_eq|].
      intros b Hb. unfold updZ. now apply Z.eqb_neq in Hb as ->.
  - apply SetFPR_Ok_inv in H as (_ & H).
    apply store_Ok_inv in H as (G & F & I & _ & _ & [(P & E & St)|(a & P & E & St)]).
    + repeat split; try assumption. now left.
    + repeat split; try assumption. right. exists a. rewrite St.
      repeat split; try assumption; [apply updZ_eq|].
      intros b Hb. unfold updZ. now apply Z.eqb_neq in Hb as ->.
Qed.

(** ** More on [FillCalleeSaves] *)

Lemma count_bits_all_clear (mask : Z) (n a : nat) :
  (forall b, (a <= b < a + n)%nat -> spilled mask b = false) ->
  count_bits mask a n = 0.
Proof.
  revert a. induction n as [|n IH]; intros a H; [reflexivity|].
  rewrite count_bits_skip by (apply H; lia).
  apply IH. intros b Hb. apply H. lia.
Qed.

(** The set bits of a 32-bit mask, split around bit [i]. *)
Lemma POPCOUNT_split (mask : Z) (i : nat) :
  (i < 32)%nat -> spilled mask i = true ->
  POPCOUNT mask = count_bits mask 0 i + 1 + count_bits mask (S i) (31 - i).
Proof.
  intros Hi Hs. unfold POPCOUNT.
  replace 32%nat with (i + S (31 - i))%nat at 1 by lia.
  rewrite count_bits_app. cbn [Nat.add].
  rewrite count_bits_step by assumption. lia.
Qed.

(** X9. The position [FillCalleeSaves] asks the frame for is the number of
    set bits of the core mask above the register's own bit, less one.  The
    topmost set bit of the mask therefore gets position -1 (the unsigned
    difference [spill_count - j] wraps and is passed as an [int]); a
    register has a position of 0 or more exactly when some higher bit, such
    as a return-address marker, is set. *)
Theorem FillCalleeSaves_position_counts_higher_bits
        (fr : StackVisitor) (s : State) (i : nat) :
  let info := GetQuickFrameInfo fr in
  fp_spills_in_bounds fr = true ->
  (i < kNumberOfCpuRegisters)%nat ->
  spilled (CoreSpillMask info) i = true ->
  exists s',
    FillCalleeSaves fr s = Ok tt s' /\
    gprs_ (ctx s') i =
      CalleeSaveAddress fr (count_bits (CoreSpillMask info) (S i) (31 - i) - 1)
                        (FrameSizeInBytes info) /\
    (count_bits (CoreSpillMask info) (S i) (31 - i) - 1 = -1 <->
     forall b, (i < b < 32)%nat -> spilled (CoreSpillMask info) b = false).
Proof.
  intros info Hin Hi Hs.
  destruct (FillCalleeSaves_runs fr s Hin) as (s' & R & _).
  pose proof (FillCalleeSaves_outcome fr s) as (G & _). rewrite R in G. cbn [state_of] in G.
  unfold kNumberOfCpuRegisters in Hi.
  exists s'. split; [exact R|]. split.
  - rewrite G. fold info. rewrite Hs.
    replace (i <? kNumberOfCpuRegisters)%nat with true by (symmetry; apply Nat.ltb_lt; exact Hi).
    cbn [andb]. f_equal. unfold core_spill_position. fold info.
    rewrite (POPCOUNT_split (CoreSpillMask info) i) by (assumption || lia). lia.
  - split.
    + intros H b Hb. apply (count_bits_zero (CoreSpillMask info) (31 - i) (S i) b); lia.
    + intros H. rewrite count_bits_all_clear; [reflexivity|].
      intros b Hb. apply H. lia.
Qed.

(** X10. Walking two frames with one context: after [FillCalleeSaves] on
    [fr1] and then on [fr2], a register spilled by [fr2] is bound as [fr2]
    alone would bind it, and a register [fr2] does not spill keeps what the
    walk of [fr1] left -- the binding from [fr1] if that frame spilled it.
    In particular decoding the same frame twice changes nothing. *)
Theorem FillCalleeSaves_later_frame_overrides (fr1 fr2 : StackVisitor) (s : State) :
  fp_spills_in_bounds fr1 = true ->
  fp_spills_in_bounds fr2 = true ->
  exists s1 s2 s',
    FillCalleeSaves fr1 s = Ok tt s1 /\
    FillCalleeSaves fr2 s = Ok tt s2 /\
    (FillCalleeSaves fr1 ;; FillCalleeSaves fr2) s = Ok tt s' /\
    (forall i, (i < kNumberOfCpuRegisters)%nat ->
       gprs_ (ctx s') i =
       if spilled (CoreSpillMask (GetQuickFrameInfo fr2)) i then gprs_ (ctx s2) i
       else gprs_ (ctx s1) i) /\
    (forall k, (k < kNumberOfFloatRegisters)%nat ->
       fprs_ (ctx s') k =
       if spilled (FpSpillMask (GetQuickFrameInfo fr2)) (k / 2) then fprs_ (ctx s2) k
       else fprs_ (ctx s1) k).
Proof.
  intros H1 H2.
  destruct (FillCalleeSaves_runs fr1 s H1) as (s1 & R1 & _).
  destruct (FillCalleeSaves_runs fr2 s H2) as (s2 & R2 & F2).
  destruct (FillCalleeSaves_runs fr2 s1 H2) as (s' & R' & F').
  pose proof (FillCalleeSaves_outcome fr2 s) as (G2 & _).
  rewrite R2 in G2. cbn [state_of] in G2.
  pose proof (FillCalleeSaves_outcome fr2 s1) as (G' & _).
  rewrite R' in G'. cbn [state_of] in G'.
  exists s1, s2, s'. split; [exact R1|]. split; [exact R2|].
  split; [rewrite (bind_Ok _ _ _ _ _ R1); exact R'|]. split.
  - intros i Hi. rewrite G', G2. apply Nat.ltb_lt in Hi as ->. cbn [andb].
    destruct (spilled _ i); reflexivity.
  - intros k Hk. rewrite F', F2. apply Nat.ltb_lt in Hk as ->. cbn [andb].
    destruct (spilled _ (k / 2)); reflexivity.
Qed.

(** X12. No two slots bound by one [FillCalleeSaves] share a spill
    position: when the frame maps distinct positions to distinct addresses,
    distinct spilled registers are bound to distinct words, any two of the
    floating-point words are distinct, and no floating-point word coincides
    with the word of a general-purpose register. *)
Theorem FillCalleeSaves_binds_distinct_words (fr : StackVisitor) (s : State) :
  let info := GetQuickFrameInfo fr in
  fp_spills_in_bounds fr = true ->
  (forall n m, CalleeSaveAddress fr n (FrameSizeInBytes info)
               = CalleeSaveAddress fr m (FrameSizeInBytes info) -> n = m) ->
  exists s',
    FillCalleeSaves fr s = Ok tt s' /\
    (forall i i', (i < kNumberOfCpuRegisters)%nat -> (i' < kNumberOfCpuRegisters)%nat ->
       spilled (CoreSpillMask info) i = true -> spilled (CoreSpillMask info) i' = true ->
       i <> i' -> gprs_ (ctx s') i <> gprs_ (ctx s') i') /\
    (forall k k', (k < kNumberOfFloatRegisters)%nat -> (k' < kNumberOfFloatRegisters)%nat ->
       spilled (FpSpillMask info) (k / 2) = true ->
       spilled (FpSpillMask info) (k' / 2) = true ->
       k <> k' -> fprs_ (ctx s') k <> fprs_ (ctx s') k') /\
    (forall i k, (i < kNumberOfCpuRegisters)%nat -> (k < kNumberOfFloatRegisters)%nat ->
       spilled (CoreSpillMask info) i = true ->
       spilled (FpSpillMask info) (k / 2) = true ->
       gprs_ (ctx s') i <> fprs_ (ctx s') k).
Proof.
  intros info Hin Hinj.
  destruct (FillCalleeSaves_runs fr s Hin) as (s' & R & F).
  pose proof (FillCalleeSaves_outcome fr s) as (G & _). rewrite R in G. cbn [state_of] in G.
  fold info in G, F.
  assert (Gi : forall i, (i < kNumberOfCpuRegisters)%nat ->
             spilled (CoreSpillMask info) i = true ->
             gprs_ (ctx s') i
             = CalleeSaveAddress fr (core_spill_position fr i) (FrameSizeInBytes info)).
  { intros i Hi Hs. rewrite G, Hs. apply Nat.ltb_lt in Hi as ->. reflexivity. }
  assert (Fk : forall k, (k < kNumberOfFloatRegisters)%nat ->
             spilled (FpSpillMask info) (k / 2) = true ->
             fprs_ (ctx s') k
             = CalleeSaveAddress fr (fp_spill_position fr (k / 2) - Z.of_nat (k mod 2))
                                 (FrameSizeInBytes info)).
  { intros k Hk Hs. rewrite F, Hs. apply Nat.ltb_lt in Hk as ->. reflexivity. }
  exists s'. split; [exact R|].
  unfold kNumberOfCpuRegisters, kNumberOfFloatRegisters in *.
  split; [|split].
  - intros i i' Hi Hi' Hs Hs' Hne E.
    rewrite (Gi i), (Gi i') in E by assumption. apply Hinj in E.
    unfold core_spill_position in E. fold info in E.
    destruct (Nat.lt_ge_cases i i') as [L|L].
    + pose proof (count_bits_mono (CoreSpillMask info) i i' L Hs). lia.
    + pose proof (count_bits_mono (CoreSpillMask info) i' i ltac:(lia) Hs'). lia.
  - intros k k' Hk Hk' Hs Hs' Hne E.
    rewrite (Fk k), (Fk k') in E by assumption. apply Hinj in E.
    unfold fp_spill_position in E. fold info in E.
    destruct (Nat.lt_trichotomy (k / 2) (k' / 2)) as [L|[L|L]].
    + pose proof (count_bits_mono (FpSpillMask info) (k / 2) (k' / 2) L Hs). lia.
    + rewrite L in E. lia.
    + pose proof (count_bits_mono (FpSpillMask info) (k' / 2) (k / 2) L Hs'). lia.
  - intros i k Hi Hk Hs Hs' E.
    rewrite (Gi i), (Fk k) in E by assumption. apply Hinj in E.
    unfold core_spill_position, fp_spill_position in E. fold info in E.
    pose proof (count_bits_bounds (CoreSpillMask info) i 0).
    pose proof (count_below_POPCOUNT (FpSpillMask info) (k / 2) ltac:(lia) Hs'). lia.
Qed.

End Context_x86.

(** * The design document's scenarios, evaluated *)

(** A frame spilling registers 2 and 5: after [Reset] and [FillCalleeSaves]
    slots 2 and 5 point at the two words below the return address, the XMM
    words below them, and all other slots but ESP are unset. *)
Example FillCalleeSaves_on_sample_frame :
  exists s',
    (Reset sample_bad_gpr_base ;; FillCalleeSaves sample_frame) blank_state = Ok tt s' /\
    map (gprs_ (ctx s')) (seq 0 kNumberOfCpuRegisters)
    = [nullptr; nullptr; addr_stack 4148; nullptr;
       addr_esp_; addr_stack 4152; nullptr; nullptr] /\
    map (fprs_ (ctx s')) (seq 0 kNumberOfFloatRegisters)
    = [nullptr; nullptr; addr_stack 4132; addr_stack 4136;
       nullptr; nullptr; addr_stack 4140; addr_stack 4144;
       nullptr; nullptr; nullptr; nullptr; nullptr; nullptr; nullptr; nullptr].
Proof.
  eexists. split; [vm_compute; reflexivity|].
  split; vm_compute; reflexivity.
Qed.

(** [SetGPR(2, 0xDEAD)] on that context lands in the frame's own word. *)
Example SetGPR_writes_into_the_frame :
  exists s',
    (Reset sample_bad_gpr_base ;; FillCalleeSaves sample_frame ;;
     SetGPR true sample_IsAccessibleGPR 2 57005) blank_state = Ok tt s' /\
    stack s' 4148 = 57005 /\ stack blank_state 4148 = 0.
Proof.
  eexists. split; [vm_compute; reflexivity|].
  split; vm_compute; reflexivity.
Qed.

(** After [SmashCallerSaves], setting the result register is refused. *)
Example SetGPR_after_SmashCallerSaves_is_refused :
  exists s',
    (Reset sample_bad_gpr_base ;; SmashCallerSaves ;;
     SetGPR true sample_IsAccessibleGPR EAX 1) blank_state
    = Abort (Fatal CHECK_NE_failed) s'.
Proof. eexists. vm_compute. reflexivity. Qed.

(** With debug assertions off, setting an unset register is a store through
    [nullptr]. *)
Example SetGPR_on_unset_slot_without_DCHECK :
  exists s',
    (Reset sample_bad_gpr_base ;; SetGPR false sample_IsAccessibleGPR ECX 1) blank_state
    = Abort NullDereference s'.
Proof. eexists. vm_compute. reflexivity. Qed.

(** * Debug values are not set apart from addresses *)

(** The last clause of C4 does not hold of the code: [Reset] is to leave in
    [esp_] and [eip_] values "distinct from any valid address".  With the base 0xebad6070 and a
    thread whose stack lies in that page, the value [Reset] leaves in [esp_]
    is the address of the frame word EDX is spilled to, and the value it
    leaves in [eip_] is the address of the word of EBP: [FillCalleeSaves]
    binds the two slots to exactly these addresses, and [SetGPR] writes
    through the first and the word reads back. *)
Lemma Reset_debug_values_can_be_frame_word_addresses :
  exists s1 s2 s3,
    Reset sample_bad_gpr_base blank_state = Ok tt s1 /\
    FillCalleeSaves debug_page_frame s1 = Ok tt s2 /\
    SetGPR true sample_IsAccessibleGPR EDX 57005 s2 = Ok tt s3 /\
    esp_ (ctx s1) = 3954008180 /\
    eip_ (ctx s1) = 3954008184 /\
    gprs_ (ctx s2) EDX = addr_stack (esp_ (ctx s1)) /\
    gprs_ (ctx s2) EBP = addr_stack (eip_ (ctx s1)) /\
    read_word s3 (addr_stack (esp_ (ctx s1))) = Some 57005.
Proof.
  eexists. eexists. eexists.
  split; [vm_compute; reflexivity|].
  split; [vm_compute; reflexivity|].
  split; [vm_compute; reflexivity|].
  repeat split; vm_compute; reflexivity.
Qed.

(** * Instances on the sample inputs *)

Lemma FillCalleeSaves_binds_kth_core_spill_witness :
  fp_spills_in_bounds sample_frame = true /\
  (EDX < kNumberOfCpuRegisters)%nat /\
  spilled (CoreSpillMask (GetQuickFrameInfo sample_frame)) EDX = true /\
  exists s', FillCalleeSaves sample_frame blank_state = Ok tt s' /\
             gprs_ (ctx s') EDX = addr_stack 4148.
Proof.
  split; [reflexivity|].
  split; [unfold EDX, kNumberOfCpuRegisters; lia|].
  split; [reflexivity|].
  destruct (FillCalleeSaves_binds_kth_core_spill sample_frame blank_state EDX
              eq_refl ltac:(unfold EDX, kNumberOfCpuRegisters; lia) eq_refl)
    as (s' & R & G & _).
  exists s'. split; [exact R|]. rewrite G. reflexivity.
Defined.

Lemma SetGPR_SetFPR_checks_then_writes_through_witness :
  (EBX < kNumberOfCpuRegisters)%nat /\
  gprs_ (ctx sample_state) EBX <> nullptr /\
  gprs_ (ctx sample_state) EBX <> addr_gZero /\
  true && negb (sample_IsAccessibleGPR EBX sample_state) = false /\
  exists s', SetGPR true sample_IsAccessibleGPR EBX 57005 sample_state = Ok tt s' /\
             read_word s' (addr_stack 4152) = Some 57005.
Proof.
  assert (H1 : (EBX < kNumberOfCpuRegisters)%nat)
    by (unfold EBX, kNumberOfCpuRegisters; lia).
  assert (H2 : gprs_ (ctx sample_state) EBX <> nullptr) by discriminate.
  assert (H3 : gprs_ (ctx sample_state) EBX <> addr_gZero) by discriminate.
  assert (H4 : true && negb (sample_IsAccessibleGPR EBX sample_state) = false)
    by reflexivity.
  repeat (split; [assumption|]).
  destruct (SetGPR_SetFPR_checks_then_writes_through
              true sample_IsAccessibleGPR sample_IsAccessibleFPR EBX 57005 sample_state)
    as (_ & _ & _ & W & _).
  destruct (W H1 H2 H3 H4) as (s' & R & V & _).
  exists s'. split; [exact R|exact V].
Defined.

Lemma DoLongJump_fills_buffer_in_pop_order_witness :
  true = true /\
  exists lj s',
    DoLongJump sample_bad_gpr_base sample_bad_fpr_base true
               (fun _ => 0) (fun _ => 0) sample_cpu sample_state = Ok lj s' /\
    jump_gprs lj 4%nat = 4153 /\
    jump_gprs lj 6%nat = 3954008177 /\
    jump_gprs lj 8%nat = 4196 /\
    stack s' 4196 = 4660.
Proof.
  split; [reflexivity|].
  destruct (DoLongJump_fills_buffer_in_pop_order
              sample_bad_gpr_base sample_bad_fpr_base true
              (fun _ => 0) (fun _ => 0) sample_cpu sample_state eq_refl)
    as (lj & s' & R & Hbound & Hunset & Hsp & Hret & _).
  assert (L : forall i, (i < 8)%nat -> (i < kNumberOfCpuRegisters)%nat)
    by (intros i Hi; exact Hi).
  pose proof (Hbound EBX (L EBX ltac:(unfold EBX; lia)) ltac:(discriminate)) as Hb.
  pose proof (Hbound ESP (L ESP ltac:(unfold ESP; lia)) ltac:(discriminate)) as Hs.
  pose proof (Hunset ECX (L ECX ltac:(unfold ECX; lia)) eq_refl) as Hc.
  cbn in Hb, Hs. injection Hb as Hb. injection Hs as Hs.
  assert (E8 : jump_gprs lj 8%nat = 4196).
  { change 8%nat with kNumberOfCpuRegisters. rewrite Hsp.
    change (kNumberOfCpuRegisters - 1 - ESP)%nat with 3%nat. rewrite <- Hs. reflexivity. }
  exists lj, s'. split; [exact R|].
  split; [symmetry; exact Hb|].
  split; [exact Hc|].
  split; [exact E8|].
  rewrite <- E8. exact Hret.
Defined.

Lemma Reset_clears_slots_and_sets_debug_values_witness :
  exists s', Reset sample_bad_gpr_base sample_state = Ok tt s' /\
             gprs_ (ctx s') EAX = nullptr /\
             gprs_ (ctx s') EBX = nullptr /\
             fprs_ (ctx s') 2%nat = nullptr /\
             esp_ (ctx s') = 3954008180 /\
             eip_ (ctx s') = 3954008184.
Proof.
  destruct (Reset_clears_slots_and_sets_debug_values sample_bad_gpr_base sample_state)
    as (s' & R & G & F & _ & _ & _ & V & _).
  exists s'. split; [exact R|].
  split; [apply G; [unfold EAX, kNumberOfCpuRegisters; lia|discriminate]|].
  split; [apply G; [unfold EBX, kNumberOfCpuRegisters; lia|discriminate]|].
  split; [apply F; unfold kNumberOfFloatRegisters; lia|].
  apply V; unfold sample_bad_gpr_base, kNumberOfCpuRegisters; cbn; lia.
Defined.

Lemma FillCalleeSaves_binds_xmm_word_pairs_witness :
  fp_spills_in_bounds sample_frame = true /\
  (3 < kNumberOfFloatRegisters)%nat /\
  spilled (FpSpillMask (GetQuickFrameInfo sample_frame)) 3 = true /\
  exists s', FillCalleeSaves sample_frame blank_state = Ok tt s' /\
             fprs_ (ctx s') 6%nat = addr_stack 4140 /\
             fprs_ (ctx s') 7%nat = addr_stack 4144.
Proof.
  split; [reflexivity|].
  split; [unfold kNumberOfFloatRegisters; lia|].
  split; [reflexivity|].
  destruct (FillCalleeSaves_binds_xmm_word_pairs sample_frame blank_state 3
              eq_refl ltac:(unfold kNumberOfFloatRegisters; lia) eq_refl)
    as (s' & R & F0 & F1 & _).
  exists s'. split; [exact R|]. split; [exact F0|exact F1].
Defined.

Lemma FillCalleeSaves_touches_only_spilled_bindings_witness :
  fp_spills_in_bounds sample_frame = true /\
  exists s', FillCalleeSaves sample_frame sample_state = Ok tt s' /\
             gprs_ (ctx s') EBX = addr_stack 4152 /\
             gprs_ (ctx s') EAX = addr_gZero /\
             gprs_ (ctx s') ECX = nullptr /\
             fprs_ (ctx s') 0%nat = addr_gZero /\
             stack s' = stack sample_state.
Proof.
  split; [reflexivity|].
  destruct (FillCalleeSaves_touches_only_spilled_bindings sample_frame sample_state eq_refl)
    as (s' & R & G & F & _ & _ & St & _).
  exists s'. split; [exact R|].
  split; [exact (G EBX ltac:(unfold EBX, kNumberOfCpuRegisters; lia) eq_refl)|].
  split; [exact (G EAX ltac:(unfold EAX, kNumberOfCpuRegisters; lia) eq_refl)|].
  split; [exact (G ECX ltac:(unfold ECX, kNumberOfCpuRegisters; lia) eq_refl)|].
  split; [exact (proj1 (F 0%nat eq_refl))|exact St].
Defined.

Lemma ESP_slot_bound_in_every_reachable_state_witness :
  Forall frame_addresses_nonnull sample_calls /\
  (Reset sample_bad_gpr_base ;;
   run_ops true sample_IsAccessibleGPR sample_IsAccessibleFPR sample_calls) blank_state
  = Ok tt (state_of ((Reset sample_bad_gpr_base ;;
                      run_ops true sample_IsAccessibleGPR sample_IsAccessibleFPR
                              sample_calls) blank_state)) /\
  gprs_ (ctx (state_of ((Reset sample_bad_gpr_base ;;
                         run_ops true sample_IsAccessibleGPR sample_IsAccessibleFPR
                                 sample_calls) blank_state))) ESP <> nullptr.
Proof.
  assert (H1 : Forall frame_addresses_nonnull sample_calls).
  { repeat constructor. intros num size. discriminate. }
  assert (H2 : (Reset sample_bad_gpr_base ;;
                run_ops true sample_IsAccessibleGPR sample_IsAccessibleFPR sample_calls)
                 blank_state
               = Ok tt (state_of ((Reset sample_bad_gpr_base ;;
                                   run_ops true sample_IsAccessibleGPR
                                           sample_IsAccessibleFPR sample_calls)
                                    blank_state))) by (vm_compute; reflexivity).
  split; [exact H1|]. split; [exact H2|].
  exact (proj1 (ESP_slot_bound_in_every_reachable_state
                  sample_bad_gpr_base true sample_IsAccessibleGPR sample_IsAccessibleFPR
                  blank_state sample_calls _ H1 H2)).
Defined.

Lemma SetGPR_SetFPR_failed_check_changes_nothing_witness :
  gprs_ (ctx sample_state) EAX = addr_gZero /\
  exists c, SetGPR true sample_IsAccessibleGPR EAX 57005 sample_state
            = Abort (Fatal c) sample_state.
Proof.
  split; [reflexivity|].
  exact (proj1 (SetGPR_SetFPR_failed_check_changes_nothing
                  true sample_IsAccessibleGPR sample_IsAccessibleFPR EAX 57005 sample_state)
               (or_intror eq_refl)).
Defined.

(** * Instances of the further properties *)

Lemma DoLongJump_loads_xmm_from_fpr_buffer_witness :
  true = true /\
  exists lj s',
    DoLongJump sample_bad_gpr_base sample_bad_fpr_base true
               (fun _ => 0) (fun _ => 0) sample_cpu sample_state = Ok lj s' /\
    cpu_xmm (jump_cpu lj) 1%nat = (4121, 3954016371) /\
    cpu_xmm (jump_cpu lj) 0%nat = (0, 3954016369).
Proof.
  split; [reflexivity|].
  destruct (DoLongJump_loads_xmm_from_fpr_buffer
              sample_bad_gpr_base sample_bad_fpr_base true
              (fun _ => 0) (fun _ => 0) sample_cpu sample_state eq_refl)
    as (lj & s' & R & Hb & Hn & X).
  assert (L : forall k, (k < 16)%nat -> (k < kNumberOfFloatRegisters)%nat)
    by (intros k Hk; exact Hk).
  pose proof (Hb 2%nat (L 2%nat ltac:(lia)) ltac:(discriminate)) as H2.
  pose proof (Hb 0%nat (L 0%nat ltac:(lia)) ltac:(discriminate)) as H0.
  pose proof (Hn 3%nat (L 3%nat ltac:(lia)) eq_refl) as H3.
  pose proof (Hn 1%nat (L 1%nat ltac:(lia)) eq_refl) as H1.
  cbn in H2, H0. injection H2 as H2. injection H0 as H0.
  exists lj, s'. split; [exact R|]. split.
  - rewrite (X 1%nat ltac:(lia)). cbn [Nat.mul Nat.add]. rewrite <- H2, H3. reflexivity.
  - rewrite (X 0%nat ltac:(lia)). cbn [Nat.mul Nat.add]. rewrite <- H0, H1. reflexivity.
Defined.

Lemma SetGPR_value_is_what_DoLongJump_loads_witness :
  true = true /\
  SetGPR true sample_IsAccessibleGPR EBX 57005 sample_state
  = Ok tt (state_of (SetGPR true sample_IsAccessibleGPR EBX 57005 sample_state)) /\
  exists lj s2,
    DoLongJump sample_bad_gpr_base sample_bad_fpr_base true (fun _ => 0) (fun _ => 0)
               sample_cpu
               (state_of (SetGPR true sample_IsAccessibleGPR EBX 57005 sample_state))
    = Ok lj s2 /\
    cpu_reg (jump_cpu lj) EBX = 57005 /\
    cpu_eip (jump_cpu lj) = 4660.
Proof.
  assert (H : SetGPR true sample_IsAccessibleGPR EBX 57005 sample_state
              = Ok tt (state_of (SetGPR true sample_IsAccessibleGPR EBX 57005 sample_state)))
    by (vm_compute; reflexivity).
  split; [reflexivity|]. split; [exact H|].
  destruct (SetGPR_value_is_what_DoLongJump_loads
              sample_bad_gpr_base sample_bad_fpr_base true sample_IsAccessibleGPR true
              EBX 57005 (fun _ => 0) (fun _ => 0) sample_cpu sample_state _ eq_refl H)
    as (lj & s2 & R & _ & C & _ & I).
  exists lj, s2. split; [exact R|]. split; [apply C; discriminate|exact I].
Defined.

Lemma SetFPR_value_is_what_DoLongJump_loads_witness :
  true = true /\
  SetFPR true sample_IsAccessibleFPR 2 48879 sample_state
  = Ok tt (state_of (SetFPR true sample_IsAccessibleFPR 2 48879 sample_state)) /\
  exists lj s2,
    DoLongJump sample_bad_gpr_base sample_bad_fpr_base true (fun _ => 0) (fun _ => 0)
               sample_cpu
               (state_of (SetFPR true sample_IsAccessibleFPR 2 48879 sample_state))
    = Ok lj s2 /\
    fst (cpu_xmm (jump_cpu lj) 1%nat) = 48879.
Proof.
  assert (H : SetFPR true sample_IsAccessibleFPR 2 48879 sample_state
              = Ok tt (state_of (SetFPR true sample_IsAccessibleFPR 2 48879 sample_state)))
    by (vm_compute; reflexivity).
  split; [reflexivity|]. split; [exact H|].
  destruct (SetFPR_value_is_what_DoLongJump_loads
              sample_bad_gpr_base sample_bad_fpr_base true sample_IsAccessibleFPR true
              2 48879 (fun _ => 0) (fun _ => 0) sample_cpu sample_state _ eq_refl H)
    as (lj & s2 & R & _ & X).
  exists lj, s2. split; [exact R|exact X].
Defined.

Lemma SmashCallerSaves_then_DoLongJump_returns_zero_witness :
  true = true /\
  exists lj s',
    (SmashCallerSaves ;;
     DoLongJump sample_bad_gpr_base sample_bad_fpr_base true (fun _ => 7) (fun _ => 7)
                sample_cpu) sample_state = Ok lj s' /\
    cpu_reg (jump_cpu lj) EAX = 0 /\ cpu_reg (jump_cpu lj) EDX = 0.
Proof.
  split; [reflexivity|].
  destruct (SmashCallerSaves_then_DoLongJump_returns_zero
              sample_bad_gpr_base sample_bad_fpr_base true (fun _ => 7) (fun _ => 7)
              sample_cpu sample_state eq_refl)
    as (lj & s' & R & A & D & _).
  exists lj, s'. split; [exact R|]. split; [exact A|exact D].
Defined.

Lemma SmashCallerSaves_then_set_is_refused_witness :
  exists s1 c,
    (SmashCallerSaves ;; SetGPR true sample_IsAccessibleGPR EAX 1) sample_state
    = Abort (Fatal c) s1 /\
    stack s1 = stack sample_state.
Proof.
  destruct (SmashCallerSaves_then_set_is_refused
              true sample_IsAccessibleGPR sample_IsAccessibleFPR sample_state EAX 1)
    as (s1 & _ & A & _ & _ & St & _).
  destruct (A (or_introl eq_refl)) as (c & R).
  exists s1, c. split; [exact R|exact St].
Defined.

Lemma FillCalleeSaves_then_SetGPR_writes_the_frame_word_witness :
  fp_spills_in_bounds sample_frame = true /\
  (EDX < kNumberOfCpuRegisters)%nat /\
  spilled (CoreSpillMask (GetQuickFrameInfo sample_frame)) EDX = true /\
  CalleeSaveAddress sample_frame 1 64 = addr_stack 4148 /\
  true && negb (sample_IsAccessibleGPR EDX
                  (state_of (FillCalleeSaves sample_frame blank_state))) = false /\
  exists s',
    (FillCalleeSaves sample_frame ;; SetGPR true sample_IsAccessibleGPR EDX 57005)
      blank_state = Ok tt s' /\
    stack s' 4148 = 57005.
Proof.
  assert (H2 : (EDX < kNumberOfCpuRegisters)%nat)
    by (unfold EDX, kNumberOfCpuRegisters; lia).
  assert (H5 : true && negb (sample_IsAccessibleGPR EDX
                  (state_of (FillCalleeSaves sample_frame blank_state))) = false)
    by (vm_compute; reflexivity).
  split; [reflexivity|]. split; [exact H2|]. split; [reflexivity|].
  split; [reflexivity|]. split; [exact H5|].
  destruct (FillCalleeSaves_then_SetGPR_writes_the_frame_word
              true sample_IsAccessibleGPR sample_frame blank_state EDX 57005 4148
              eq_refl H2 eq_refl eq_refl H5)
    as (s' & R & V & _).
  exists s'. split; [exact R|exact V].
Defined.

Lemma SetGPR_SetFPR_write_exactly_one_word_witness :
  SetGPR true sample_IsAccessibleGPR EBX 57005 sample_state
  = Ok tt (state_of (SetGPR true sample_IsAccessibleGPR EBX 57005 sample_state)) /\
  eip_ (ctx (state_of (SetGPR true sample_IsAccessibleGPR EBX 57005 sample_state)))
  = eip_ (ctx sample_state).
Proof.
  assert (H : SetGPR true sample_IsAccessibleGPR EBX 57005 sample_state
              = Ok tt (state_of (SetGPR true sample_IsAccessibleGPR EBX 57005 sample_state)))
    by (vm_compute; reflexivity).
  split; [exact H|].
  destruct (SetGPR_SetFPR_write_exactly_one_word
              true sample_IsAccessibleGPR sample_IsAccessibleFPR EBX 57005 sample_state
              (state_of (SetGPR true sample_IsAccessibleGPR EBX 57005 sample_state)))
    as (W & _).
  destruct (W H) as (_ & _ & I & _). exact I.
Defined.

Lemma FillCalleeSaves_position_counts_higher_bits_witness :
  fp_spills_in_bounds sample_frame = true /\
  (EBP < kNumberOfCpuRegisters)%nat /\
  spilled (CoreSpillMask (GetQuickFrameInfo sample_frame)) EBP = true /\
  exists s', FillCalleeSaves sample_frame blank_state = Ok tt s' /\
             gprs_ (ctx s') EBP = CalleeSaveAddress sample_frame 0 64.
Proof.
  assert (H2 : (EBP < kNumberOfCpuRegisters)%nat)
    by (unfold EBP, kNumberOfCpuRegisters; lia).
  split; [reflexivity|]. split; [exact H2|]. split; [reflexivity|].
  destruct (FillCalleeSaves_position_counts_higher_bits
              sample_frame blank_state EBP eq_refl H2 eq_refl)
    as (s' & R & G & _).
  exists s'. split; [exact R|exact G].
Defined.

Lemma FillCalleeSaves_later_frame_overrides_witness :
  fp_spills_in_bounds sample_frame = true /\
  fp_spills_in_bounds outer_frame = true /\
  exists s',
    (FillCalleeSaves sample_frame ;; FillCalleeSaves outer_frame) blank_state = Ok tt s' /\
    gprs_ (ctx s') EDX = addr_stack 4148 /\
    gprs_ (ctx s') EBX = addr_stack 4180 /\
    gprs_ (ctx s') EBP = addr_stack 4184.
Proof.
  split; [reflexivity|]. split; [reflexivity|].
  destruct (FillCalleeSaves_later_frame_overrides sample_frame outer_frame blank_state
              eq_refl eq_refl)
    as (s1 & s2 & s' & R1 & R2 & R & G & _).
  assert (L : forall i, (i < 8)%nat -> (i < kNumberOfCpuRegisters)%nat)
    by (intros i Hi; exact Hi).
  assert (E1 : s1 = state_of (FillCalleeSaves sample_frame blank_state))
    by (rewrite R1; reflexivity).
  assert (E2 : s2 = state_of (FillCalleeSaves outer_frame blank_state))
    by (rewrite R2; reflexivity).
  exists s'. split; [exact R|].
  split; [|split].
  - rewrite (G EDX (L EDX ltac:(unfold EDX; lia))), E1. reflexivity.
  - rewrite (G EBX (L EBX ltac:(unfold EBX; lia))), E2. reflexivity.
  - rewrite (G EBP (L EBP ltac:(unfold EBP; lia))), E2. reflexivity.
Defined.

Lemma FillCalleeSaves_binds_distinct_words_witness :
  fp_spills_in_bounds sample_frame = true /\
  (forall n m, CalleeSaveAddress sample_frame n 64 = CalleeSaveAddress sample_frame m 64 ->
               n = m) /\
  exists s', FillCalleeSaves sample_frame blank_state = Ok tt s' /\
             gprs_ (ctx s') EDX <> gprs_ (ctx s') EBP /\
             gprs_ (ctx s') EBP <> fprs_ (ctx s') 7%nat.
Proof.
  assert (Hinj : forall n m, CalleeSaveAddress sample_frame n 64
                             = CalleeSaveAddress sample_frame m 64 -> n = m).
  { intros n m H. cbv [sample_frame CalleeSaveAddress] in H.
    apply (f_equal (fun p => match p with addr_stack a => a | _ => 0 end)) in H.
    cbv beta iota in H. lia. }
  assert (L : forall i, (i < 8)%nat -> (i < kNumberOfCpuRegisters)%nat)
    by (intros i Hi; exact Hi).
  split; [reflexivity|]. split; [exact Hinj|].
  destruct (FillCalleeSaves_binds_distinct_words sample_frame blank_state eq_refl Hinj)
    as (s' & R & G & _ & GF).
  exists s'. split; [exact R|]. split.
  - apply G; try reflexivity; try discriminate; apply L; unfold EDX, EBP; lia.
  - apply GF; try reflexivity; [apply L; unfold EBP; lia|].
    unfold kNumberOfFloatRegisters. lia.
Defined.
